(** * iArchive: the archive operations of [src/main.py]

    A shallow embedding of the archive logic of the iArchive desktop
    application (class [IArchiveApp] and its drop widget), with the
    filesystem, the message boxes and the spawned processes made explicit
    as a state that every operation threads through.

    - [PyStr]: the Python string and [os.path] functions the code calls.
    - [Model]: files, archives, the world state and the exception monad.
    - [App]: the methods of [IArchiveApp], one definition per method.
    - the properties of the specification, stated and settled on these
      definitions. *)

From Stdlib Require Import Ascii.
From stdpp Require Import base strings list gmap.

Open Scope string_scope.
Open Scope list_scope.

(* ===================================================================== *)
(** ** Python strings and paths *)
(* ===================================================================== *)

Module PyStr.

(** [s[n:]] *)
Fixpoint drop (n : nat) (s : string) : string :=
  match n, s with
  | O, _ => s
  | S _, EmptyString => EmptyString
  | S k, String _ r => drop k r
  end.

(** [s[:n]] *)
Fixpoint take (n : nat) (s : string) : string :=
  match n, s with
  | O, _ => EmptyString
  | S _, EmptyString => EmptyString
  | S k, String c r => String c (take k r)
  end.

(** [s.startswith(p)] *)
Fixpoint startswith (s p : string) : bool :=
  match p, s with
  | EmptyString, _ => true
  | String _ _, EmptyString => false
  | String a p', String b s' => Ascii.eqb a b && startswith s' p'
  end.

(** [s.endswith(suf)]: the tail of [s] of the length of [suf] is [suf]. *)
Definition endswith (s suf : string) : bool :=
  (String.length suf <=? String.length s)%nat
  && String.eqb (drop (String.length s - String.length suf) s) suf.

(** [s.endswith((a, b))], the tuple form. *)
Definition endswith_any (s : string) (sufs : list string) : bool :=
  existsb (endswith s) sufs.

(** ['/' in s] *)
Fixpoint has_sep (s : string) : bool :=
  match s with
  | EmptyString => false
  | String c r => Ascii.eqb c "/"%char || has_sep r
  end.

(** [os.path.basename(p)]: what follows the last ['/']. *)
Fixpoint basename (p : string) : string :=
  match p with
  | EmptyString => EmptyString
  | String c r =>
      if has_sep r then basename r
      else if Ascii.eqb c "/"%char then r else p
  end.

(** [p[:p.rfind('/') + 1]]: [p] up to and including its last ['/']. *)
Fixpoint head_part (p : string) : string :=
  match p with
  | EmptyString => EmptyString
  | String c r =>
      if has_sep r then String c (head_part r)
      else if Ascii.eqb c "/"%char then String c EmptyString else EmptyString
  end.

(** [s.rstrip('/')] *)
Fixpoint rstrip_sep (s : string) : string :=
  match s with
  | EmptyString => EmptyString
  | String c r =>
      match rstrip_sep r with
      | EmptyString => if Ascii.eqb c "/"%char then EmptyString else String c EmptyString
      | r' => String c r'
      end
  end.

(** [s.lstrip('/')] *)
Fixpoint lstrip_sep (s : string) : string :=
  match s with
  | EmptyString => EmptyString
  | String c r => if Ascii.eqb c "/"%char then lstrip_sep r else s
  end.

(** [s.split('/')] without the empty components. *)
Fixpoint components_from (cur : string) (s : string) : list string :=
  match s with
  | EmptyString => if String.eqb cur "" then [] else [cur]
  | String c r =>
      if Ascii.eqb c "/"%char
      then (if String.eqb cur "" then [] else [cur]) ++ components_from "" r
      else components_from (cur +:+ String c EmptyString) r
  end.

Definition components (s : string) : list string := components_from "" s.

(** [os.path.dirname(p)]: the head, without its trailing slashes unless it
    consists of slashes only. *)
Definition dirname (p : string) : string :=
  let head := head_part p in
  match rstrip_sep head with
  | EmptyString => head
  | stripped => stripped
  end.

(** [os.path.join(a, b)] *)
Definition join (a b : string) : string :=
  if startswith b "/" then b
  else if String.eqb a "" || endswith a "/" then a +:+ b
  else a +:+ "/" +:+ b.

(** [s.replace(old, new)] for a non-empty [old]: occurrences are found from
    the left and do not overlap. [skip] counts the characters of the
    current occurrence that are still to be passed over. *)
Fixpoint replace_from (skip : nat) (old new s : string) : string :=
  match s with
  | EmptyString => EmptyString
  | String c r =>
      match skip with
      | S k => replace_from k old new r
      | O =>
          if startswith s old
          then new +:+ replace_from (String.length old - 1) old new r
          else String c (replace_from 0 old new r)
      end
  end.

Definition replace (s old new : string) : string := replace_from 0 old new s.

(** Python whitespace, as [str.strip()] sees it. A character of a string
    stands for the code point of its number, so that the texts of the model
    are the Python strings of code points below 256; among these the
    whitespace is U+0009 to U+000D, U+001C to U+0020, U+0085 (next line)
    and U+00A0 (no-break space). *)
Definition is_space (c : Ascii.ascii) : bool :=
  let n := Ascii.nat_of_ascii c in
  (n =? 32)%nat || ((9 <=? n)%nat && (n <=? 13)%nat)
  || ((28 <=? n)%nat && (n <=? 31)%nat)
  || (n =? 133)%nat || (n =? 160)%nat.

Fixpoint lstrip (s : string) : string :=
  match s with
  | EmptyString => EmptyString
  | String c r => if is_space c then lstrip r else s
  end.

Fixpoint rstrip (s : string) : string :=
  match s with
  | EmptyString => EmptyString
  | String c r =>
      match rstrip r with
      | EmptyString => if is_space c then EmptyString else String c EmptyString
      | r' => String c r'
      end
  end.

(** [s.strip()] *)
Definition strip (s : string) : string := rstrip (lstrip s).

(** ["needle in s"] *)
Fixpoint contains (s needle : string) : bool :=
  startswith s needle
  || match s with
     | EmptyString => false
     | String _ r => contains r needle
     end.

(** [os.path.relpath(path, start)] where [path] lies below [start], the only
    way the archive writer calls it: the part of [path] after [start] and
    the separator. *)
Definition relpath (path start : string) : string :=
  if String.eqb start "/" then drop 1 path
  else if startswith path (start +:+ "/") then drop (String.length start + 1) path
  else path.

End PyStr.

(** What it means for a name to end with a pattern. *)
Definition ends_with (name pattern : string) : Prop :=
  exists front : string, name = front +:+ pattern.

(* ===================================================================== *)
(** ** The exclusion filter *)
(* ===================================================================== *)

(** [IArchiveApp._should_exclude]. The pattern is a Python value that may be
    [None]; [not exclude_ext] holds for [None] and for the empty string. *)
Definition _should_exclude (filename : string) (exclude_ext : option string) : bool :=
  match exclude_ext with
  | None => false
  | Some EmptyString => false
  | Some ext => PyStr.endswith filename ext
  end.

(* ===================================================================== *)
(** ** Files, archives and the world the application runs in *)
(* ===================================================================== *)

Module Model.

(** The stream codecs behind [gzip.open], [bz2.open] and [lzma.open]. *)
Inductive codec := GZ | BZ2 | XZ.

(** How the entries of a zip file are protected: not at all
    ([zipfile.ZipFile]), with AES ([pyzipper.AESZipFile]) or with the
    traditional cipher of the [zip] command ([zip -P]). *)
Inductive encryption :=
| Unencrypted
| AES (pwd : string)
| ZipCrypto (pwd : string).

(** What a file holds. The codecs and container formats belong to the
    libraries, so a file is kept in decoded form: plain bytes, a
    compressed stream of some content, a tar archive (with a flag telling
    whether the end-of-archive marker was written) or a zip archive. *)
Inductive content :=
| Bytes (data : string)
| Packed (c : codec) (inner : content)
| TarFile (members : list member) (closed : bool)
| ZipFile (enc : encryption) (entries : list member)
with member :=
| Member (name : string) (isdir : bool) (payload : content).

Definition m_name (m : member) : string := let 'Member n _ _ := m in n.
Definition m_isdir (m : member) : bool := let 'Member _ d _ := m in d.
Definition m_payload (m : member) : content := let 'Member _ _ p := m in p.

(** A path names a regular file or a directory. The filesystem maps
    paths to nodes; paths are the absolute, normalized paths that the file
    dialogs and drops of the window system deliver, and the entries of a
    directory are the paths one component below it. *)
Inductive node :=
| File (c : content)
| Dir.

(** The Python exceptions that reach the methods' [except] clauses. *)
Inductive exn :=
| FileNotFoundError (path : string)
| IsADirectoryError (path : string)
| NotADirectoryError (path : string)
| PermissionError (path : string)
| ReadError (msg : string)
| BadZipFile (msg : string)
| BadGzipFile (msg : string)
| RuntimeError (msg : string)
| CalledProcessError (cmd : list string)
| OSError (msg : string)
| KeyError (key : string)
| RecursionError
| Exception (msg : string).

(** [str(e)] *)
Definition str (e : exn) : string :=
  match e with
  | FileNotFoundError p => "[Errno 2] No such file or directory: '" +:+ p +:+ "'"
  | IsADirectoryError p => "[Errno 21] Is a directory: '" +:+ p +:+ "'"
  | NotADirectoryError p => "[Errno 20] Not a directory: '" +:+ p +:+ "'"
  | PermissionError p => "[Errno 13] Permission denied: '" +:+ p +:+ "'"
  | ReadError msg => msg
  | BadZipFile msg => msg
  | BadGzipFile msg => msg
  | RuntimeError msg => msg
  | CalledProcessError cmd =>
      "Command '" +:+ String.concat " " cmd +:+ "' returned non-zero exit status"
  | OSError msg => msg
  | KeyError key => "'" +:+ key +:+ "'"
  | RecursionError => "maximum recursion depth exceeded"
  | Exception msg => msg
  end.

(** [QMessageBox.information], [.warning], [.critical] and [.question],
    with title and text. *)
Inductive dialog :=
| Information (title text : string)
| Warning (title text : string)
| Critical (title text : string)
| Question (title text : string).

(** Everything outside the application object: the filesystem, the message
    boxes shown so far (oldest first) and the command lines handed to
    [subprocess.run] so far. *)
Record world := World {
  fs : gmap string node;
  dialogs : list dialog;
  procs : list (list string)
}.

Definition set_fs (f : gmap string node → gmap string node) (w : world) : world :=
  World (f (fs w)) (dialogs w) (procs w).

Definition show (d : dialog) (w : world) : world :=
  World (fs w) (dialogs w ++ [d]) (procs w).

Definition spawned (cmd : list string) (w : world) : world :=
  World (fs w) (dialogs w) (procs w ++ [cmd]).

(** What the code cannot decide by itself: which optional packages and
    tools are installed, and which accesses the operating system refuses. *)
Record env := Env {
  HAS_PYZIPPER : bool;
  zip_installed : bool;
  (** opening the path for reading is refused *)
  unreadable : string → bool;
  (** creating or truncating the path is refused (missing parent directory,
      permissions, full disk) *)
  unwritable : string → bool;
  (** copying the payload of the archive member of this name fails *)
  copy_fails : string → bool
}.

(** Results of a Python call: a value or a raised exception. *)
Inductive result (A : Type) :=
| Ok (a : A)
| Raise (e : exn).
Arguments Ok {A} a.
Arguments Raise {A} e.

(** Computations that change the world and may raise. *)
Definition M (A : Type) : Type := world → result A * world.

Definition ret {A} (a : A) : M A := λ w, (Ok a, w).
Definition raise {A} (e : exn) : M A := λ w, (Raise e, w).
Definition bind {A B} (m : M A) (k : A → M B) : M B :=
  λ w, match m w with
       | (Ok a, w') => k a w'
       | (Raise e, w') => (Raise e, w')
       end.

#[export] Instance M_ret : MRet M := @ret.
#[export] Instance M_bind : MBind M := λ A B k m, bind m k.

(** [try: m  except Exception as e: h e] *)
Definition try_except {A} (m : M A) (h : exn → M A) : M A :=
  λ w, match m w with
       | (Ok a, w') => (Ok a, w')
       | (Raise e, w') => h e w'
       end.

Definition get_fs : M (gmap string node) := λ w, (Ok (fs w), w).
Definition modify_fs (f : gmap string node → gmap string node) : M unit :=
  λ w, (Ok tt, set_fs f w).
Definition message (d : dialog) : M unit := λ w, (Ok tt, show d w).

(** [for x in xs: body x] *)
Fixpoint for_each {A} (xs : list A) (body : A → M unit) : M unit :=
  match xs with
  | [] => ret tt
  | x :: rest => bind (body x) (λ _, for_each rest body)
  end.

(** [os.path.exists], [os.path.isfile], [os.path.isdir] *)
Definition path_exists (f : gmap string node) (p : string) : bool :=
  match f !! p with Some _ => true | None => false end.
Definition isfile (f : gmap string node) (p : string) : bool :=
  match f !! p with Some (File _) => true | _ => false end.
Definition isdir (f : gmap string node) (p : string) : bool :=
  match f !! p with Some Dir => true | _ => false end.

(** The name of [k] inside the directory [d], when [k] is directly in it. *)
Definition child_name (d k : string) : option string :=
  let front := if PyStr.endswith d "/" then d else d +:+ "/" in
  if PyStr.startswith k front then
    let rest := PyStr.drop (String.length front) k in
    if String.eqb rest "" || PyStr.has_sep rest then None else Some rest
  else None.

(** [os.listdir(d)], in the arbitrary order of the operating system. *)
Definition listdir (f : gmap string node) (d : string) : list string :=
  omap (child_name d) (map fst (map_to_list f)).

Fixpoint insert_sorted (x : string) (l : list string) : list string :=
  match l with
  | [] => [x]
  | y :: r => if String.leb x y then x :: l else y :: insert_sorted x r
  end.

(** [sorted(names)] *)
Definition sorted (l : list string) : list string := foldr insert_sorted [] l.

(** Python's default recursion limit. *)
Definition recursion_limit : nat := 1000.

End Model.

(* ===================================================================== *)
(** ** The library calls the application makes *)
(* ===================================================================== *)

Module Lib.
Import Model.

Section WithEnv.
Context (E : env).

(** [open(path, 'rb')]: the checks made when the file is opened. *)
Definition open_rb (path : string) : M unit :=
  λ w, if unreadable E path then (Raise (PermissionError path), w)
       else match fs w !! path with
            | None => (Raise (FileNotFoundError path), w)
            | Some Dir => (Raise (IsADirectoryError path), w)
            | Some (File _) => (Ok tt, w)
            end.

(** [open(path, 'rb')] and reading the whole file. *)
Definition read_file (path : string) : M content :=
  λ w, if unreadable E path then (Raise (PermissionError path), w)
       else match fs w !! path with
            | None => (Raise (FileNotFoundError path), w)
            | Some Dir => (Raise (IsADirectoryError path), w)
            | Some (File c) => (Ok c, w)
            end.

(** [open(path, 'wb')] and writing [c]: the file is created or replaced. *)
Definition create_file (path : string) (c : content) : M unit :=
  λ w, if unwritable E path then (Raise (PermissionError path), w)
       else match fs w !! path with
            | Some Dir => (Raise (IsADirectoryError path), w)
            | _ => (Ok tt, set_fs <[path := File c]> w)
            end.

(** Writing through a handle that is already open on [path]. *)
Definition rewrite_file (path : string) (c : content) : M unit :=
  modify_fs <[path := File c]>.

(** *** [tarfile] *)

(** A file of no bytes: an empty plain file, or what
    [tarfile.open(path, 'w')] leaves as long as neither a member nor the
    end-of-archive marker is written. *)
Definition no_bytes (c : content) : bool :=
  match c with
  | Bytes EmptyString => true
  | TarFile [] false => true
  | _ => false
  end.

(** Reading a stream of bytes as a tar archive: [tarfile] refuses a stream
    of no bytes as an empty file and any other stream that is no archive
    at its first header; an archive that only lacks its end-of-archive
    marker is read up to its last member. *)
Definition read_tar (c : content) : M (list member) :=
  if no_bytes c then raise (ReadError "empty file")
  else match c with
       | TarFile ms _ => mret ms
       | _ => raise (ReadError "invalid header")
       end.

(** [tarfile.open(path, 'r:')] or, with [gz], [tarfile.open(path, 'r:gz')],
    and [getmembers()]. A file of no bytes passes for an empty gzip
    stream. *)
Definition tar_open_read (path : string) (gz : bool) : M (list member) :=
  c ← read_file path;
  if gz then
    match c with
    | Packed GZ inner => read_tar inner
    | _ => if no_bytes c then raise (ReadError "empty file")
           else raise (ReadError "not a gzip file")
    end
  else read_tar c.

(** [tarfile.open(path, 'w')] *)
Definition tar_open_write (path : string) : M unit :=
  create_file path (TarFile [] false).

(** [tf.addfile(member, fileobj)] once the payload is at hand. *)
Definition tar_append (tf : string) (m : member) : M unit :=
  λ w, match fs w !! tf with
       | Some (File (TarFile ms closed)) =>
           (Ok tt, set_fs <[tf := File (TarFile (ms ++ [m]) closed)]> w)
       | _ => (Raise (OSError "TarFile is closed"), w)
       end.

(** [tf.close()], which the [with] statement runs when its body did not
    raise: the end-of-archive marker is written. *)
Definition tar_close (tf : string) : M unit :=
  λ w, match fs w !! tf with
       | Some (File (TarFile ms _)) =>
           (Ok tt, set_fs <[tf := File (TarFile ms true)]> w)
       | _ => (Ok tt, w)
       end.

(** [TarFile.add(name, arcname, recursive=True, filter=filter)] of the
    standard library: the archive itself is skipped, the filter may drop
    the entry (and with it everything below it), a directory is followed
    by its sorted children. *)
Fixpoint tar_add (fuel : nat) (tf name arcname : string)
    (filter : member → option member) : M unit :=
  match fuel with
  | O => raise RecursionError
  | S fuel' =>
      if String.eqb name tf then mret tt
      else
        f ← get_fs;
        match f !! name with
        | None => raise (FileNotFoundError name)
        | Some nd =>
            let tarinfo :=
              Member (PyStr.lstrip_sep arcname)
                     (match nd with Dir => true | File _ => false end)
                     (Bytes "") in
            match filter tarinfo with
            | None => mret tt
            | Some ti =>
                if m_isdir ti then
                  tar_append tf ti ;;
                  f' ← get_fs;
                  for_each (sorted (listdir f' name))
                    (λ c, tar_add fuel' tf (PyStr.join name c)
                                  (PyStr.join arcname c) filter)
                else
                  c ← read_file name;
                  tar_append tf (Member (m_name ti) false c)
            end
        end
  end.

(** [tf_in.extractfile(member)] and reading it, in the repack loop. *)
Definition extractfile (m : member) : M content :=
  if copy_fails E (m_name m)
  then raise (OSError ("unexpected end of data: " +:+ m_name m))
  else mret (m_payload m).

(** *** [zipfile] and [pyzipper] *)

(** [zipfile.ZipFile(path, 'w', ...)], [pyzipper.AESZipFile(path, 'w', ...)] *)
Definition zip_open_write (path : string) (enc : encryption) : M unit :=
  create_file path (ZipFile enc []).

(** [zf.setpassword(pwd)] on an AES zip file. *)
Definition zip_setpassword (zf : string) (pwd : string) : M unit :=
  λ w, match fs w !! zf with
       | Some (File (ZipFile _ es)) =>
           (Ok tt, set_fs <[zf := File (ZipFile (AES pwd) es)]> w)
       | _ => (Raise (OSError "ZipFile is closed"), w)
       end.

Definition zip_append (zf : string) (m : member) : M unit :=
  λ w, match fs w !! zf with
       | Some (File (ZipFile enc es)) =>
           (Ok tt, set_fs <[zf := File (ZipFile enc (es ++ [m]))]> w)
       | _ => (Raise (OSError "ZipFile is closed"), w)
       end.

(** [zf.write(filename, arcname)]: a directory becomes an entry whose name
    ends in a slash, a file an entry with its content. *)
Definition zip_write (zf filename arcname : string) : M unit :=
  f ← get_fs;
  match f !! filename with
  | None => raise (FileNotFoundError filename)
  | Some Dir => zip_append zf (Member (arcname +:+ "/") true (Bytes ""))
  | Some (File _) =>
      c ← read_file filename;
      zip_append zf (Member arcname false c)
  end.

(** [zipfile.ZipFile(path, 'r')] *)
Definition zip_open_read (path : string) : M (encryption * list member) :=
  c ← read_file path;
  match c with
  | ZipFile enc es => mret (enc, es)
  | _ => raise (BadZipFile "File is not a zip file")
  end.

(** *** Extraction *)

(** The directories [base/c1], [base/c1/c2], ... above the last component. *)
Fixpoint parents_from (base : string) (cs : list string) : list string :=
  match cs with
  | [] => []
  | [_] => []
  | c :: rest => let d := PyStr.join base c in d :: parents_from d rest
  end.

(** [os.makedirs(d, exist_ok=True)] for each of [ds]. *)
Definition makedirs (ds : list string) : M unit :=
  for_each ds (λ d w,
    match fs w !! d with
    | None => (Ok tt, set_fs <[d := Dir]> w)
    | Some Dir => (Ok tt, w)
    | Some (File _) => (Raise (NotADirectoryError d), w)
    end).

(** Writing one archive member below [dest], as [extractall] of both
    libraries does: missing directories are made, a directory entry makes
    its directory, a file entry creates or replaces its file. *)
Definition extract_member (dest : string) (m : member) : M unit :=
  let cs := PyStr.components (m_name m) in
  let target := foldl PyStr.join dest cs in
  makedirs (dest :: parents_from dest cs) ;;
  if m_isdir m then makedirs [target]
  else create_file target (m_payload m).

(** [tf.extractall(dest, members=members)] *)
Definition tar_extractall (dest : string) (members : list member) : M unit :=
  for_each members (extract_member dest).

(** [zf.extractall(dest, members=names)] without a password: each name is
    looked up in the archive; the content of a protected entry cannot be
    read. *)
Definition zip_extractall (enc : encryption) (entries : list member)
    (dest : string) (names : list string) : M unit :=
  for_each names (λ n,
    match List.find (λ m, String.eqb (m_name m) n) (rev entries) with
    | None => raise (KeyError n)
    | Some m =>
        if m_isdir m then extract_member dest m
        else match enc with
             | Unencrypted => extract_member dest m
             | ZipCrypto _ =>
                 raise (RuntimeError ("File '" +:+ n +:+
                          "' is encrypted, password required for extraction"))
             | AES _ =>
                 raise (RuntimeError "That compression method is not supported")
             end
    end).

(** *** [os.walk], [shutil], streams *)

(** [for root, dirs, filenames in os.walk(top): body], top down; the body
    runs between the listing of a directory and the visit of its
    subdirectories. *)
Fixpoint os_walk_for (fuel : nat) (top : string)
    (body : string → list string → list string → M unit) : M unit :=
  match fuel with
  | O => raise RecursionError
  | S fuel' =>
      f ← get_fs;
      let names := listdir f top in
      let dirs := List.filter (λ n, isdir f (PyStr.join top n)) names in
      let filenames := List.filter (λ n, negb (isdir f (PyStr.join top n))) names in
      body top dirs filenames ;;
      for_each dirs (λ d, os_walk_for fuel' (PyStr.join top d) body)
  end.

(** [shutil.move(src, dst)] on one filesystem: a rename, into [dst] when
    [dst] is a directory, onto it otherwise. *)
Definition shutil_move (src dst : string) : M unit :=
  λ w, match fs w !! src with
       | None => (Raise (FileNotFoundError src), w)
       | Some nd =>
           match fs w !! dst with
           | Some Dir =>
               let real_dst := PyStr.join dst (PyStr.basename src) in
               if path_exists (fs w) real_dst
               then (Raise (OSError ("Destination path '" +:+ real_dst +:+
                                     "' already exists")), w)
               else (Ok tt, set_fs (λ f, <[real_dst := nd]> (delete src f)) w)
           | _ => (Ok tt, set_fs (λ f, <[dst := nd]> (delete src f)) w)
           end
       end.

(** [with open_func(dest, 'wb') as f_out] where [open_func] is [gzip.open],
    [bz2.open] or [lzma.open]: the file exists, empty, from here on. *)
Definition codec_open_wb (dest : string) : M unit :=
  create_file dest (Bytes "").

(** [shutil.copyfileobj(f_in, f_out)] into a compressing stream. *)
Definition copy_compress (c : codec) (input_file dest : string) : M unit :=
  data ← read_file input_file;
  rewrite_file dest (Packed c data).

(** [shutil.copyfileobj(f_in, f_out)] out of a [gzip.open(src, 'rb')]
    stream: the gzip header is checked at the first read. *)
Definition copy_gunzip (src out_name : string) : M unit :=
  data ← read_file src;
  match data with
  | Packed GZ inner => rewrite_file out_name inner
  | _ => raise (BadGzipFile "Not a gzipped file")
  end.

(** *** The external [zip] command *)

(** The entries [zip -r] stores for one argument: the path without its
    leading slash, and for a directory everything below it. *)
Fixpoint zip_collect_r (fuel : nat) (f : gmap string node) (path : string)
    : list member :=
  match fuel with
  | O => []
  | S fuel' =>
      match f !! path with
      | None => []
      | Some (File c) =>
          if unreadable E path then []
          else [Member (PyStr.lstrip_sep path) false c]
      | Some Dir =>
          Member (PyStr.lstrip_sep path +:+ "/") true (Bytes "")
          :: flat_map (λ n, zip_collect_r fuel' f (PyStr.join path n))
                      (listdir f path)
      end
  end.

(** The entries [zip -j] stores for one argument: a file under its base
    name, nothing for a directory. *)
Definition zip_collect_j (f : gmap string node) (path : string) : list member :=
  match f !! path with
  | Some (File c) =>
      if unreadable E path then []
      else [Member (PyStr.basename path) false c]
  | _ => []
  end.

(** [zip -P pwd (-r|-j) dest inputs...]: the archive at [dest] ([.zip] is
    appended to a name without a suffix) is created, or updated when it
    exists; with nothing to store, or a target that cannot be written, the
    command exits with a non-zero status. [None] is that status. *)
Definition zip_command (pwd : string) (recurse : bool) (dest : string)
    (inputs : list string) (f : gmap string node) : option (gmap string node) :=
  let target :=
    if PyStr.contains (PyStr.basename dest) "." then dest else dest +:+ ".zip" in
  let new :=
    flat_map (λ p, if recurse then zip_collect_r recursion_limit f p
                   else zip_collect_j f p) inputs in
  let fresh (old : list member) :=
    List.filter (λ m, negb (existsb (λ n, String.eqb (m_name n) (m_name m)) new)) old in
  if unwritable E target then None
  else match new, f !! target with
       | [], _ => None
       | _, None => Some (<[target := File (ZipFile (ZipCrypto pwd) new)]> f)
       | _, Some (File (ZipFile _ old)) =>
           Some (<[target := File (ZipFile (ZipCrypto pwd) (fresh old ++ new))]> f)
       | _, Some _ => None
       end.

(** [subprocess.run(cmd, check=True, ...)]: a missing program raises
    [FileNotFoundError], a non-zero exit status [CalledProcessError]. *)
Definition subprocess_run (cmd : list string) : M unit :=
  λ w, let w1 := spawned cmd w in
       match cmd with
       | "zip" :: args =>
           if zip_installed E then
             match args with
             | ["-h"] => (Ok tt, w1)
             | "-P" :: pwd :: flag :: dest :: inputs =>
                 if String.eqb flag "-r" || String.eqb flag "-j" then
                   match zip_command pwd (String.eqb flag "-r") dest inputs (fs w1) with
                   | Some f' => (Ok tt, set_fs (λ _, f') w1)
                   | None => (Raise (CalledProcessError cmd), w1)
                   end
                 else (Raise (CalledProcessError cmd), w1)
             | _ => (Raise (CalledProcessError cmd), w1)
             end
           else (Raise (FileNotFoundError "zip"), w1)
       | prog :: _ => (Raise (FileNotFoundError prog), w1)
       | [] => (Raise (OSError "empty command"), w1)
       end.

(** *** Appending to an archive *)

(** [tarfile.open(path, 'a')]: a missing archive is created; an existing
    one is opened for reading and writing and read up to its end-of-archive
    marker, which has to be there. *)
Definition tar_open_append (path : string) : M unit :=
  λ w, match fs w !! path with
       | None => tar_open_write path w
       | Some Dir => (Raise (IsADirectoryError path), w)
       | Some (File c) =>
           if unreadable E path || unwritable E path
           then (Raise (PermissionError path), w)
           else match c with
                | TarFile _ true => (Ok tt, w)
                | TarFile _ false => (Raise (ReadError "empty header"), w)
                | _ => (Raise (ReadError "invalid header"), w)
                end
       end.

(** [zipfile.ZipFile(path, 'a')]: a missing archive is created; to a file
    that is not a zip archive a new, empty archive is appended, and the
    file reads as that archive from then on. *)
Definition zip_open_append (path : string) : M unit :=
  λ w, match fs w !! path with
       | None => zip_open_write path Unencrypted w
       | Some Dir => (Raise (IsADirectoryError path), w)
       | Some (File c) =>
           if unreadable E path || unwritable E path
           then (Raise (PermissionError path), w)
           else match c with
                | ZipFile _ _ => (Ok tt, w)
                | _ => (Ok tt, set_fs <[path := File (ZipFile Unencrypted [])]> w)
                end
       end.

End WithEnv.
End Lib.

(* ===================================================================== *)
(** ** The application *)
(* ===================================================================== *)

Module App.
Import Model Lib.

(** An entry of [FORMAT_CONFIG]. *)
Record format_config := FormatConfig {
  ext : string;
  type : string;
  multi : bool
}.

Definition FORMAT_CONFIG : list (string * format_config) :=
  [ ("Tar",   FormatConfig ".tar" "archive" true);
    ("Zip",   FormatConfig ".zip" "compressed_archive" true);
    ("Gzip",  FormatConfig ".gz"  "compress_only" false);
    ("Bzip2", FormatConfig ".bz2" "compress_only" false);
    ("Xz",    FormatConfig ".xz"  "compress_only" false);
    ("7z",    FormatConfig ".7z"  "compressed_archive" true);
    ("Rar",   FormatConfig ".rar" "compressed_archive" true) ].

(** [FORMAT_CONFIG[text]]; the combo box offers the keys only. *)
Definition format_lookup (text : string) : option format_config :=
  snd <$> List.find (λ kv, String.eqb (fst kv) text) FORMAT_CONFIG.

(** The widgets of the "Create Archive" tab and [self.destination_path]. *)
Record create_tab := CreateTab {
  file_list : list string;
  combo_format : string;
  destination_path : string;
  lbl_dest_path : string;
  line_password : string;
  check_recursive : bool;
  line_exclude : string
}.

(** The widgets of the "Extract / Unzip" tab. *)
Record extract_tab := ExtractTab {
  line_extract_src : string;
  line_extract_dest : string;
  line_extract_exclude : string
}.

(** The widgets of the "Manage Files" tab. Of the table only the first
    column, the entry names, is ever read back; [current_row] is [None]
    when no row is selected ([currentRow() < 0]). *)
Record manage_tab := ManageTab {
  line_manage_path : string;
  table_files : list string;
  current_row : option nat;
  lbl_checksum : string;
  btn_delete_enabled : bool;
  btn_delete_text : string
}.

(** The [IArchiveApp] object. *)
Record app := AppState {
  create : create_tab;
  extract : extract_tab;
  manage : manage_tab;
  status_label : string
}.

(** The state [__init__] builds. *)
Definition init : app :=
  AppState
    (CreateTab [] "Tar" "" "Output: (None selected)" "" true "")
    (ExtractTab "" "" "")
    (ManageTab "" [] None "Checksum: N/A" true "Delete Selected")
    "Ready".

Definition with_create (f : create_tab → create_tab) (a : app) : app :=
  AppState (f (create a)) (extract a) (manage a) (status_label a).
Definition with_extract (f : extract_tab → extract_tab) (a : app) : app :=
  AppState (create a) (f (extract a)) (manage a) (status_label a).
Definition with_manage (f : manage_tab → manage_tab) (a : app) : app :=
  AppState (create a) (extract a) (f (manage a)) (status_label a).
Definition set_status (s : string) (a : app) : app :=
  AppState (create a) (extract a) (manage a) s.

Definition set_file_list (l : list string) (c : create_tab) : create_tab :=
  CreateTab l (combo_format c) (destination_path c) (lbl_dest_path c)
            (line_password c) (check_recursive c) (line_exclude c).
Definition set_combo_format (t : string) (c : create_tab) : create_tab :=
  CreateTab (file_list c) t (destination_path c) (lbl_dest_path c)
            (line_password c) (check_recursive c) (line_exclude c).
Definition set_destination (path label : string) (c : create_tab) : create_tab :=
  CreateTab (file_list c) (combo_format c) path label
            (line_password c) (check_recursive c) (line_exclude c).
Definition set_password (p : string) (c : create_tab) : create_tab :=
  CreateTab (file_list c) (combo_format c) (destination_path c) (lbl_dest_path c)
            p (check_recursive c) (line_exclude c).
Definition set_recursive (b : bool) (c : create_tab) : create_tab :=
  CreateTab (file_list c) (combo_format c) (destination_path c) (lbl_dest_path c)
            (line_password c) b (line_exclude c).
Definition set_exclude (x : string) (c : create_tab) : create_tab :=
  CreateTab (file_list c) (combo_format c) (destination_path c) (lbl_dest_path c)
            (line_password c) (check_recursive c) x.

(** Python truth of a string. *)
Definition truthy (s : string) : bool := negb (String.eqb s "").

(** *** The drop list *)

(** [DragDropListWidget.add_file_item] *)
Definition add_file_item (path : string) (items : list string) : list string :=
  if existsb (String.eqb path) items then items else items ++ [path].

(** [for f in files: self.file_list.add_file_item(f)] *)
Definition add_file_items (files : list string) (a : app) : app :=
  with_create (λ c, set_file_list (foldl (λ items f, add_file_item f items)
                                         (file_list c) files) c) a.

(** [DragDropListWidget.dropEvent], [files] being the dropped URLs. *)
Definition dropEvent (files : list string) (a : app) : app :=
  add_file_items files a.

(** *** Create *)

(** [IArchiveApp.on_format_changed] *)
Definition on_format_changed (text : string) (a : app) (w : world) : app * world :=
  match format_lookup text with
  | None => (a, w)
  | Some cfg =>
      if negb (multi cfg) && (1 <? length (file_list (create a)))%nat then
        (with_create (set_file_list []) a,
         show (Warning "Restriction"
                 (text +:+ " only supports single file compression.")) w)
      else (a, w)
  end.

(** The user picks [text] in the format combo box. The box signals
    [currentTextChanged], and so runs [on_format_changed], only when the
    text differs from the one it shows. *)
Definition choose_format (text : string) (a : app) (w : world) : app * world :=
  if String.eqb text (combo_format (create a)) then (a, w)
  else on_format_changed text (with_create (set_combo_format text) a) w.

(** [IArchiveApp.add_files_action], [files] being what the file dialog
    returned. *)
Definition add_files_action (files : list string) (a : app) (w : world)
    : app * world :=
  let fmt := combo_format (create a) in
  match format_lookup fmt with
  | None => (a, w)
  | Some cfg =>
      match files with
      | [] => (a, w)
      | _ =>
          if negb (multi cfg)
             && ((0 <? length (file_list (create a)))%nat
                 || (1 <? length files)%nat)
          then (a, show (Critical "Error" (fmt +:+ " allows only ONE input file.")) w)
          else (add_file_items files a, w)
      end
  end.

(** [IArchiveApp.set_destination_action], [path] being what the save dialog
    returned. *)
Definition set_destination_action (path : string) (a : app) : app :=
  if truthy path
  then with_create (set_destination path (PyStr.basename path)) a
  else a.

(** [DragDropListWidget.remove_selected]; [selected] holds the rows of the
    selected items. [from] is the row of the first item of [items]. *)
Fixpoint remove_rows (from : nat) (selected : list nat) (items : list string)
    : list string :=
  match items with
  | [] => []
  | x :: rest =>
      if existsb (Nat.eqb from) selected
      then remove_rows (S from) selected rest
      else x :: remove_rows (S from) selected rest
  end.

Definition remove_selected (selected : list nat) (a : app) : app :=
  with_create (λ c, set_file_list (remove_rows 0 selected (file_list c)) c) a.

(** [self.file_list.clear], the slot of the "Clear All" button. *)
Definition clear_files (a : app) : app := with_create (set_file_list []) a.

(** [IArchiveApp.browse_extract_source], [f] being what the file dialog
    returned. *)
Definition browse_extract_source (f : string) (a : app) : app :=
  if truthy f
  then with_extract (λ x, ExtractTab f (line_extract_dest x) (line_extract_exclude x)) a
  else a.

(** [IArchiveApp.browse_extract_dest], [d] being what the directory dialog
    returned. *)
Definition browse_extract_dest (d : string) (a : app) : app :=
  if truthy d
  then with_extract (λ x, ExtractTab (line_extract_src x) d (line_extract_exclude x)) a
  else a.

Section WithEnv.
Context (E : env).

(** [IArchiveApp._write_to_zip]; [zf] is the zip file being written. *)
Definition _write_to_zip (zf : string) (files : list string) (recursive : bool)
    (exclude : string) : M unit :=
  for_each files (λ f,
    fsys ← get_fs;
    if isfile fsys f then
      if negb (_should_exclude f (Some exclude))
      then zip_write E zf f (PyStr.basename f)
      else mret tt
    else if isdir fsys f then
      if recursive then
        os_walk_for recursion_limit f (λ root dirs filenames,
          for_each filenames (λ filename,
            if negb (_should_exclude filename (Some exclude)) then
              let filepath := PyStr.join root filename in
              let arcname := PyStr.relpath filepath (PyStr.dirname f) in
              zip_write E zf filepath arcname
            else mret tt))
      else zip_write E zf f (PyStr.basename f)
    else mret tt).

(** The command line of the second strategy of [create_zip]. *)
Definition zip_cmd (files : list string) (dest pwd : string) (recursive : bool)
    : list string :=
  if negb recursive
  then ["zip"; "-P"; pwd; "-j"; dest] ++ files
  else ["zip"; "-P"; pwd; "-r"; dest] ++ files.

(** [IArchiveApp.create_zip]: the three strategies. The first and the
    second end in [return] or [raise], so each is entered at most once and
    nothing after it runs. *)
Definition create_zip (files : list string) (dest pwd : string)
    (recursive : bool) (exclude : string) : M unit :=
  if HAS_PYZIPPER E && truthy pwd then
    try_except
      (zip_open_write E dest (AES "") ;;
       zip_setpassword dest pwd ;;
       _write_to_zip dest files recursive exclude)
      (λ e, raise (Exception ("pyzipper error: " +:+ str e)))
  else if truthy pwd then
    try_except
      (subprocess_run E ["zip"; "-h"] ;;
       subprocess_run E (zip_cmd files dest pwd recursive))
      (λ e, match e with
            | FileNotFoundError _ =>
                raise (Exception "System 'zip' command not found. Please install 'pyzipper' via pip for password support.")
            | CalledProcessError _ =>
                raise (Exception "System zip command failed. Ensure you have permissions.")
            | _ => raise e
            end)
  else
    zip_open_write E dest Unencrypted ;;
    _write_to_zip dest files recursive exclude.

(** The closure [tar_filter] of [create_tar], for the input path [f]. *)
Definition tar_filter (recursive : bool) (exclude f : string) (tarinfo : member)
    : option member :=
  if negb recursive && m_isdir tarinfo
     && negb (String.eqb (m_name tarinfo) (PyStr.basename f))
  then None
  else if _should_exclude (m_name tarinfo) (Some exclude) then None
  else Some tarinfo.

(** [IArchiveApp.create_tar]; the only mode it is called with is ["w"]. *)
Definition create_tar (files : list string) (dest : string) (recursive : bool)
    (exclude : string) : M unit :=
  tar_open_write E dest ;;
  for_each files (λ f,
    if _should_exclude f (Some exclude) then mret tt
    else tar_add E recursion_limit dest f (PyStr.basename f)
                 (tar_filter recursive exclude f)) ;;
  tar_close dest.

(** [IArchiveApp.create_single_compress]; [open_func] is given by its
    codec. *)
Definition create_single_compress (input_file dest : string) (open_func : codec)
    : M unit :=
  open_rb E input_file ;;
  codec_open_wb E dest ;;
  copy_compress E open_func input_file dest.

(** [files[0]] *)
Definition first (files : list string) : M string :=
  match files with
  | f :: _ => mret f
  | [] => raise (Exception "list index out of range")
  end.

(** What the [try] block of [process_archive_action] does before it
    reports: [true] when an archive was written, [false] when the format
    needs external binaries. *)
Definition dispatch_format (fmt : string) (files : list string)
    (dest pwd : string) (recursive : bool) (exclude_ext : string) : M bool :=
  if String.eqb fmt "Zip" then
    create_zip files dest pwd recursive exclude_ext ;; mret true
  else if String.eqb fmt "Tar" then
    create_tar files dest recursive exclude_ext ;; mret true
  else if String.eqb fmt "Gzip" then
    f ← first files; create_single_compress f dest GZ ;; mret true
  else if String.eqb fmt "Bzip2" then
    f ← first files; create_single_compress f dest BZ2 ;; mret true
  else if String.eqb fmt "Xz" then
    f ← first files; create_single_compress f dest XZ ;; mret true
  else mret false.

(** [IArchiveApp.process_archive_action] *)
Definition process_archive_action (a : app) (w : world) : app * world :=
  let c := create a in
  if (length (file_list c) =? 0)%nat then
    (a, show (Warning "Error"
                "Please drag files into the list or click Add Files.") w)
  else if negb (truthy (destination_path c)) then
    (a, show (Warning "Error" "Please set a destination path.") w)
  else
    let files := file_list c in
    let fmt := combo_format c in
    let pwd := line_password c in
    let recursive := check_recursive c in
    let exclude_ext := PyStr.strip (line_exclude c) in
    let a1 := set_status "Processing..." a in
    match dispatch_format fmt files (destination_path c) pwd recursive exclude_ext w with
    | (Ok true, w') =>
        (set_status "Ready"
           (with_create (λ c, set_password ""
                               (set_destination "" "Output: (None selected)"
                                  (set_file_list [] c))) a1),
         show (Information "Success" "Archive created successfully.") w')
    | (Ok false, w') =>
        (set_status "Ready" a1,
         show (Information "Info" (fmt +:+ " creation requires external binaries.")) w')
    | (Raise e, w') =>
        (set_status "Error" a1, show (Critical "Error" (str e)) w')
    end.

(** *** Extract *)

(** The [try] block of [run_extraction] up to its success message: the
    branch is chosen by the suffix of the source path, and no branch is
    taken when no suffix matches. *)
Definition extract_by_suffix (src dest exclude : string) : M unit :=
  if PyStr.endswith src ".zip" then
    try_except
      ('(enc, entries) ← zip_open_read E src;
       let members :=
         List.filter (λ m, negb (_should_exclude m (Some exclude)))
                     (map m_name entries) in
       zip_extractall E enc entries dest members)
      (λ e, match e with
            | RuntimeError msg =>
                if PyStr.contains msg "encrypted" || PyStr.contains msg "Bad password"
                then message (Warning "Encrypted Zip"
                       "This file is encrypted. Please use macOS Finder to extract it.")
                else raise e
            | _ => raise e
            end)
  else if PyStr.endswith src ".tar" then
    tf ← tar_open_read E src false;
    let members :=
      List.filter (λ m, negb (_should_exclude (m_name m) (Some exclude))) tf in
    tar_extractall E dest members
  else if PyStr.endswith_any src [".tar.gz"; ".tgz"] then
    tf ← tar_open_read E src true;
    let members :=
      List.filter (λ m, negb (_should_exclude (m_name m) (Some exclude))) tf in
    tar_extractall E dest members
  else if PyStr.endswith src ".gz" then
    let out_name :=
      PyStr.join dest (PyStr.replace (PyStr.basename src) ".gz" "") in
    open_rb E src ;;
    create_file E out_name (Bytes "") ;;
    copy_gunzip E src out_name
  else mret tt.

(** [IArchiveApp.run_extraction] *)
Definition run_extraction (a : app) (w : world) : world :=
  let src := line_extract_src (extract a) in
  let dest := line_extract_dest (extract a) in
  let exclude := PyStr.strip (line_extract_exclude (extract a)) in
  if negb (path_exists (fs w) src) || negb (truthy dest) then
    show (Warning "Missing Info"
            "Please select source file and destination folder.") w
  else
    match extract_by_suffix src dest exclude w with
    | (Ok _, w') => show (Information "Success" "Extraction complete.") w'
    | (Raise e, w') => show (Critical "Error" (str e)) w'
    end.

(** *** Manage *)

(** [zipfile.is_zipfile(f)] *)
Definition is_zipfile (f : string) (w : world) : bool :=
  match read_file E f w with
  | (Ok (ZipFile _ _), _) => true
  | _ => false
  end.

(** [tarfile.is_tarfile(f)]: any compression is seen through, and a stream
    of no bytes is no archive; an error of the operating system is not
    caught. *)
Definition is_tarfile (f : string) : M bool :=
  c ← read_file E f;
  match c with
  | TarFile _ _ => mret (negb (no_bytes c))
  | Packed _ (TarFile ms closed) => mret (negb (no_bytes (TarFile ms closed)))
  | _ => mret false
  end.

(** The [try] block of [load_archive_for_management]: the names for the
    rows of the table. *)
Definition list_entries (f : string) : M (list string) :=
  λ w, if is_zipfile f w then
         ('(_, entries) ← zip_open_read E f; mret (map m_name entries)) w
       else
         (t ← is_tarfile f;
          if (t : bool) then
            members ← tar_open_read E f (negb (PyStr.endswith f ".tar"));
            mret (map m_name members)
          else mret []) w.

(** [IArchiveApp.load_archive_for_management], [f] being what the file
    dialog returned. The checksum is computed by a worker thread, of which
    only the label it starts from is kept. *)
Definition load_archive_for_management (f : string) (a : app) (w : world)
    : app * world :=
  if negb (truthy f) then (a, w)
  else
    let is_pure_archive := PyStr.endswith f ".tar" in
    let tab rows :=
      ManageTab f rows None "Checksum: Calculating..." is_pure_archive
                (if is_pure_archive then "Delete Selected"
                 else "Delete Disabled (Compressed)") in
    match list_entries f w with
    | (Ok rows, w') => (with_manage (λ _, tab rows) a, w')
    | (Raise e, w') =>
        (with_manage (λ _, tab []) a,
         show (Critical "Error" ("Could not read archive: " +:+ str e)) w')
    end.

(** The two nested [with] statements of [delete_from_archive]: every member
    whose name differs from [filename_to_del] is copied from the archive to
    the new archive at [temp_path]. *)
Definition copy_kept (arc_path temp_path filename_to_del : string) : M unit :=
  tf_in ← tar_open_read E arc_path false;
  tar_open_write E temp_path ;;
  for_each tf_in (λ member,
    if negb (String.eqb (m_name member) filename_to_del) then
      data ← extractfile E member;
      tar_append temp_path (Member (m_name member) (m_isdir member) data)
    else mret tt) ;;
  tar_close temp_path.

(** The [try] block of [delete_from_archive] up to and including
    [shutil.move]. *)
Definition repack (arc_path filename_to_del : string) : M unit :=
  let temp_path := arc_path +:+ ".tmp" in
  copy_kept arc_path temp_path filename_to_del ;;
  shutil_move temp_path arc_path.

(** The text of the confirmation question. *)
Definition confirm (filename_to_del : string) : dialog :=
  Question "Confirm"
    ("Delete " +:+ filename_to_del +:+ "? This will repack the archive.").

(** [IArchiveApp.delete_from_archive]; [reply] tells whether the user
    answered Yes, [chosen] is what the file dialog of the reload returns. *)
Definition delete_from_archive (reply : bool) (chosen : string) (a : app)
    (w : world) : app * world :=
  let arc_path := line_manage_path (manage a) in
  match current_row (manage a) with
  | None => (a, w)
  | Some row =>
      match table_files (manage a) !! row with
      | None => (a, w)
      | Some filename_to_del =>
          let w0 := show (confirm filename_to_del) w in
          if reply then
            match repack arc_path filename_to_del w0 with
            | (Ok _, w') =>
                load_archive_for_management chosen a
                  (show (Information "Success" "File Deleted.") w')
            | (Raise e, w') =>
                (a, show (Critical "Error" ("Failed to repack: " +:+ str e)) w')
            end
          else (a, w0)
      end
  end.

(** The [try] block of [append_to_archive] up to its success message:
    [true] when the file was appended, [false] when the suffix of the
    archive is neither [.tar] nor [.zip]. *)
Definition append_by_suffix (arc_path f_to_add : string) : M bool :=
  if PyStr.endswith arc_path ".tar" then
    tar_open_append E arc_path ;;
    tar_add E recursion_limit arc_path f_to_add (PyStr.basename f_to_add) Some ;;
    tar_close arc_path ;;
    mret true
  else if PyStr.endswith arc_path ".zip" then
    zip_open_append E arc_path ;;
    zip_write E arc_path f_to_add (PyStr.basename f_to_add) ;;
    mret true
  else mret false.

(** [IArchiveApp.append_to_archive]; [f_to_add] is what the file dialog
    returned, [chosen] what the file dialog of the reload returns. *)
Definition append_to_archive (f_to_add chosen : string) (a : app) (w : world)
    : app * world :=
  let arc_path := line_manage_path (manage a) in
  if negb (truthy arc_path) then (a, w)
  else if negb (truthy f_to_add) then (a, w)
  else
    match append_by_suffix arc_path f_to_add w with
    | (Ok true, w') =>
        load_archive_for_management chosen a
          (show (Information "Success" "File Appended.") w')
    | (Ok false, w') =>
        (a, show (Warning "Error" "Appending is only supported for .tar and .zip.") w')
    | (Raise e, w') => (a, show (Critical "Error" (str e)) w')
    end.

(** What the user does on the "Create Archive" tab. *)
Inductive create_event :=
| Drop (files : list string)
| Browse (files : list string)
| ChooseFormat (text : string)
| SetDestination (path : string)
| RemoveSelected (selected : list nat)
| ClearAll
| CreateArchive.

(** The handler each event runs. *)
Definition handle (ev : create_event) (a : app) (w : world) : app * world :=
  match ev with
  | Drop files => (dropEvent files a, w)
  | Browse files => add_files_action files a w
  | ChooseFormat text => choose_format text a w
  | SetDestination path => (set_destination_action path a, w)
  | RemoveSelected selected => (remove_selected selected a, w)
  | ClearAll => (clear_files a, w)
  | CreateArchive => process_archive_action a w
  end.

(** A session: the events are handled one after the other. *)
Fixpoint session (evs : list create_event) (a : app) (w : world) : app * world :=
  match evs with
  | [] => (a, w)
  | ev :: rest => let '(a', w') := handle ev a w in session rest a' w'
  end.

End WithEnv.
End App.

Import Model Lib App.

(* ===================================================================== *)
(** ** Notions the statements use *)
(* ===================================================================== *)

(** The members [delete_from_archive] copies. *)
Definition kept (filename_to_del : string) (ms : list member) : list member :=
  List.filter (λ m, negb (String.eqb (m_name m) filename_to_del)) ms.

(** The body of the copy loop of [copy_kept]. *)
Definition copy_body (E : env) (temp del : string) : member → M unit :=
  λ member,
    if negb (String.eqb (m_name member) del) then
      data ← extractfile E member;
      tar_append temp (Member (m_name member) (m_isdir member) data)
    else mret tt.

(** While a zip file is written, it stays a zip file under the same
    protection, and no process is started. *)
Definition writing_zip (zf : string) (enc : encryption) (w0 w : world) : Prop :=
  procs w = procs w0 ∧ dialogs w = dialogs w0
  ∧ ∃ es, fs w !! zf = Some (File (ZipFile enc es)).


(** The pairing the data model rules out: a format that takes one input
    with more than one path in the list. *)
Definition single_ok (a : app) : Prop :=
  ∀ cfg, format_lookup (combo_format (create a)) = Some cfg →
         multi cfg = false → (length (file_list (create a)) ≤ 1)%nat.




(* ===================================================================== *)
(** ** Sample inputs *)
(* ===================================================================== *)

(** A sample session for the "Manage Files" tab: a two-entry archive is
    loaded and a row of the table is selected. *)
Definition sample_archive : content :=
  TarFile [Member "a.txt" false (Bytes "A"); Member "b.txt" false (Bytes "B")] true.

Definition sample_world : world :=
  World (<["/tmp/x.tar" := File sample_archive]> (<["/tmp" := Dir]> ∅)) [] [].

Definition sample_manage (rows : list string) (row : nat) : app :=
  with_manage (λ _, ManageTab "/tmp/x.tar" rows (Some row)
                      "Checksum: Calculating..." true "Delete Selected") init.

(** No access is refused and every copy succeeds. *)
Definition calm : env := Env false true (λ _, false) (λ _, false) (λ _, false).

(** Copying the payload of [b.txt] fails. *)
Definition faulty : env :=
  Env false true (λ _, false) (λ _, false) (String.eqb "b.txt").


(** A small tree: two files, and a directory with a file and a
    subdirectory. *)
Definition sample_files : gmap string node :=
  <["/tmp/a.txt" := File (Bytes "A")]>
    (<["/tmp/b.tmp" := File (Bytes "B")]>
       (<["/tmp/d" := Dir]>
          (<["/tmp/d/x.txt" := File (Bytes "X")]>
             (<["/tmp/d/sub" := Dir]>
                (<["/tmp/d/sub/y.txt" := File (Bytes "Y")]>
                   (<["/tmp" := Dir]> ∅)))))).

(** pyzipper is installed and [/tmp/b.tmp] cannot be read. *)
Definition with_pyzipper_locked : env :=
  Env true true (String.eqb "/tmp/b.tmp") (λ _, false) (λ _, false).


(** Gzip is chosen and a destination is set; no file is listed yet. *)
Definition gzip_chosen : app :=
  set_destination_action "/tmp/out.gz"
    (choose_format "Gzip" init (World sample_files [] [])).1.

(** Gzip is chosen, two files are dropped on the list and a destination is
    set. *)
Definition gzip_two_inputs : app :=
  set_destination_action "/tmp/out.gz"
    (dropEvent ["/tmp/a.txt"; "/tmp/b.tmp"]
       (choose_format "Gzip" init (World sample_files [] [])).1).


(** The "Extract / Unzip" tab filled in. *)
Definition extract_request (src dest exclude : string) : app :=
  with_extract (λ _, ExtractTab src dest exclude) init.

(** A bzip2 file and a destination directory. *)
Definition bz2_world : world :=
  World (<["/tmp/a.bz2" := File (Packed BZ2 (Bytes "A"))]>
           (<["/tmp/out" := Dir]> (<["/tmp" := Dir]> ∅))) [] [].

(** A gzip file whose name holds [.gz] twice, and a destination
    directory. *)
Definition gz_world : world :=
  World (<["/tmp/logs.gz.2024.gz" := File (Packed GZ (Bytes "L"))]>
           (<["/tmp/out" := Dir]> (<["/tmp" := Dir]> ∅))) [] [].


(* ===================================================================== *)
(** ** Notions and inputs of the further properties *)
(* ===================================================================== *)

(** The codec [process_archive_action] passes for a compress-only format. *)
Definition codec_of (fmt : string) : option codec :=
  if String.eqb fmt "Gzip" then Some GZ
  else if String.eqb fmt "Bzip2" then Some BZ2
  else if String.eqb fmt "Xz" then Some XZ
  else None.

(** Bzip2 is chosen, one file is listed and a destination is set. *)
Definition bzip2_one_input : app :=
  set_destination_action "/tmp/out.bz2"
    (dropEvent ["/tmp/a.txt"] (choose_format "Bzip2" init (World sample_files [] [])).1).

(** A file is to be compressed to [/tmp/notes.gz] and extracted to
    [/tmp/out]. *)
Definition round_trip_request : app := extract_request "/tmp/notes.gz" "/tmp/out" "".

(** The inputs of a request that the exclusion suffix lets through, each
    with the content of its file. *)
Definition surviving (exclude : string) (inputs : list (string * content))
    : list (string * content) :=
  List.filter (λ fc, negb (_should_exclude fc.1 (Some exclude))) inputs.

(** The entry of a regular file stored under its base name. *)
Definition flat_entry (fc : string * content) : member :=
  Member (PyStr.basename fc.1) false fc.2.

(** Every input is a readable regular file with the given content, and
    none is the destination. *)
Definition plain_inputs (E : env) (w : world) (dest : string)
    (inputs : list (string * content)) : Prop :=
  ∀ f c, (f, c) ∈ inputs →
    fs w !! f = Some (File c) ∧ f ≠ dest ∧ unreadable E f = false.

(** Neither pyzipper nor the [zip] command is installed. *)
Definition bare : env := Env false false (λ _, false) (λ _, false) (λ _, false).

(** While a tar archive is written, every entry it holds so far has passed
    the exclusion filter. *)
Definition filtered_so_far (dest exclude : string) (w : world) : Prop :=
  ∃ ms, fs w !! dest = Some (File (TarFile ms false))
    ∧ ∀ m, m ∈ ms → _should_exclude (m_name m) (Some exclude) = false.

(** A gzip-compressed tar archive and a destination directory. *)
Definition tgz_world : world :=
  World (<["/tmp/x.tgz" :=
            File (Packed GZ (TarFile [Member "a.txt" false (Bytes "A");
                                      Member "b.tmp" false (Bytes "B")] true))]>
           (<["/tmp/out" := Dir]> (<["/tmp" := Dir]> ∅))) [] [].

(** An archive made by [zip -P] and a destination directory. *)
Definition locked_zip_world : world :=
  World (<["/tmp/x.zip" :=
            File (ZipFile (ZipCrypto "secret") [Member "a.txt" false (Bytes "A")])]>
           (<["/tmp/out" := Dir]> (<["/tmp" := Dir]> ∅))) [] [].


(** A gzip-compressed tar archive is loaded under the name [/tmp/x.tar]. *)
Definition packed_tar_world : world :=
  World (<["/tmp/x.tar" := File (Packed GZ sample_archive)]> (<["/tmp" := Dir]> ∅)) [] [].

(** The archive [/tmp/x.tar] and a file to append. *)
Definition append_world : world :=
  World (<["/tmp/c.txt" := File (Bytes "C")]> (fs sample_world)) [] [].



(** The file an entry is extracted to below [out]. *)
Definition target_of (out : string) (m : member) : string :=
  PyStr.join out (m_name m).

(** A file entry whose name is a single path component. *)
Definition flat_member (m : member) : Prop :=
  m_isdir m = false ∧ m_name m ≠ "" ∧ PyStr.has_sep (m_name m) = false.

(** The filesystem after the files of [es] were written below [out]. *)
Definition extracted (out : string) (es : list member) (f : gmap string node)
    : gmap string node :=
  foldl (λ f m, <[target_of out m := File (m_payload m)]> f) f es.

(* ===================================================================== *)
(** ** Facts about the string functions *)
(* ===================================================================== *)

Section StringFacts.

Lemma string_length_app (a b : string) :
  String.length (a +:+ b) = (String.length a + String.length b)%nat.
Proof. induction a as [|c a IH]; simpl; [done | by rewrite IH]. Qed.

Lemma drop_app_length (a b : string) : PyStr.drop (String.length a) (a +:+ b) = b.
Proof. induction a as [|c a IH]; simpl; [by destruct b | done]. Qed.

Lemma take_drop (n : nat) (s : string) : PyStr.take n s +:+ PyStr.drop n s = s.
Proof.
  revert s; induction n as [|n IH]; intros [|c s]; simpl; try done.
  change (String c (PyStr.take n s +:+ PyStr.drop n s) = String c s).
  by rewrite IH.
Qed.

Lemma app_ne_self (s t : string) : t ≠ "" → s +:+ t ≠ s.
Proof.
  intros Ht Heq. apply (f_equal String.length) in Heq.
  rewrite string_length_app in Heq. destruct t; [done | simpl in Heq; lia].
Qed.

(** [endswith] decides [ends_with]. *)
Lemma endswith_iff (s suf : string) :
  PyStr.endswith s suf = true ↔ ends_with s suf.
Proof.
  unfold PyStr.endswith, ends_with. rewrite andb_true_iff, Nat.leb_le, String.eqb_eq.
  split.
  - intros [_ Hd]. exists (PyStr.take (String.length s - String.length suf) s).
    pose proof (take_drop (String.length s - String.length suf) s) as Hs.
    rewrite Hd in Hs. done.
  - intros [front ->]. rewrite string_length_app. split; [lia |].
    replace (String.length front + String.length suf - String.length suf)%nat
      with (String.length front) by lia.
    apply drop_app_length.
Qed.

End StringFacts.

(* ===================================================================== *)
(** ** The exclusion filter is a plain suffix test *)
(* ===================================================================== *)

Example should_exclude_tmp : _should_exclude "b.tmp" (Some ".tmp") = true.
Proof. reflexivity. Qed.

Example should_exclude_autumn : _should_exclude "autumn" (Some "tmp") = false.
Proof. reflexivity. Qed.

Example should_exclude_plain_suffix : _should_exclude "autumn" (Some "mn") = true.
Proof. reflexivity. Qed.

Example should_exclude_no_glob : _should_exclude "a.tmp" (Some "*.tmp") = false.
Proof. reflexivity. Qed.

Example should_exclude_longer_pattern : _should_exclude "mp" (Some ".tmp") = false.
Proof. reflexivity. Qed.

(** C4. [_should_exclude name pattern] is false when the pattern is absent
    ([None]) or empty, and for every non-empty pattern it is true exactly
    when [name] ends with the pattern, that is when [name] is some string
    followed by the pattern: a plain suffix match, in which the characters
    of a glob have no special meaning. *)
Theorem should_exclude_suffix_match (name : string) :
  _should_exclude name None = false
  ∧ _should_exclude name (Some "") = false
  ∧ ∀ (c : ascii) (rest : string),
      _should_exclude name (Some (String c rest)) = true
      ↔ ends_with name (String c rest).
Proof.
  split; [done |]. split; [done |].
  intros c rest. simpl. apply endswith_iff.
Qed.

(* ===================================================================== *)
(** ** Deleting an entry by repacking *)
(* ===================================================================== *)

Ltac unfold_M :=
  unfold mbind, M_bind, bind, mret, M_ret, ret, raise, try_except, get_fs,
    modify_fs, message in *.

Lemma world_eta (w : world) : World (fs w) (dialogs w) (procs w) = w.
Proof. by destruct w. Qed.

Lemma set_fs_id (w : world) (p : string) (n : node) :
  fs w !! p = Some n → set_fs <[p := n]> w = w.
Proof. intros H. unfold set_fs. rewrite insert_id by done. apply world_eta. Qed.

Lemma set_fs_twice (w : world) (p : string) (n1 n2 : node) :
  set_fs <[p := n2]> (set_fs <[p := n1]> w) = set_fs <[p := n2]> w.
Proof. unfold set_fs; simpl. by rewrite insert_insert_eq. Qed.

Lemma member_eta (m : member) : Member (m_name m) (m_isdir m) (m_payload m) = m.
Proof. by destruct m. Qed.

Section Repack.
Context (E : env) (temp del : string).

Lemma for_each_cons {A} (x : A) (xs : list A) (body : A → M unit) (w : world) :
  for_each (x :: xs) body w
  = match body x w with
    | (Ok _, w') => for_each xs body w'
    | (Raise e, w') => (Raise e, w')
    end.
Proof. reflexivity. Qed.

Lemma copy_body_cases (m : member) (w : world) (done : list member) :
  fs w !! temp = Some (File (TarFile done false)) →
  copy_body E temp del m w
  = if negb (String.eqb (m_name m) del) then
      if copy_fails E (m_name m)
      then (Raise (OSError ("unexpected end of data: " +:+ m_name m)), w)
      else (Ok tt, set_fs <[temp := File (TarFile (done ++ [m]) false)]> w)
    else (Ok tt, w).
Proof.
  intros Hw. unfold copy_body, extractfile.
  destruct (negb (m_name m =? del)); [|done].
  destruct (copy_fails E (m_name m)); [done|].
  unfold_M. unfold tar_append. by rewrite Hw, member_eta.
Qed.

Lemma copy_loop (ms : list member) : ∀ (w : world) (done : list member),
  fs w !! temp = Some (File (TarFile done false)) →
  ∃ k, k `prefix_of` kept del ms
    ∧ (for_each ms (copy_body E temp del) w).2
      = set_fs <[temp := File (TarFile (done ++ k) false)]> w
    ∧ ((for_each ms (copy_body E temp del) w).1 = Ok tt → k = kept del ms)
    ∧ ((∀ m, m ∈ ms → copy_fails E (m_name m) = false) →
       (for_each ms (copy_body E temp del) w).1 = Ok tt).
Proof.
  induction ms as [|m ms IH]; intros w done Hw.
  - exists []. rewrite app_nil_r, set_fs_id by done. by repeat split.
  - rewrite for_each_cons, (copy_body_cases m w done Hw).
    unfold kept; simpl. fold (kept del ms).
    destruct (negb (m_name m =? del)) eqn:Hkeep.
    + destruct (copy_fails E (m_name m)) eqn:Hfail; simpl.
      * exists []. rewrite app_nil_r, set_fs_id by done.
        repeat split; [apply prefix_nil | done |].
        intros Hall. rewrite Hall in Hfail; [done | apply list_elem_of_here].
      * destruct (IH (set_fs <[temp:=File (TarFile (done ++ [m]) false)]> w) (done ++ [m]))
          as (k & Hk & Hfs & Hok & Hall).
        { simpl. apply lookup_insert_eq. }
        exists (m :: k). rewrite Hfs, set_fs_twice, <- app_assoc. simpl.
        repeat split.
        -- by apply prefix_cons.
        -- intros H. by rewrite (Hok H).
        -- intros H. apply Hall. intros m' Hm'. apply H. by apply list_elem_of_further.
    + destruct (IH w done Hw) as (k & Hk & Hfs & Hok & Hall).
      exists k. repeat split; try done.
      intros H. apply Hall. intros m' Hm'. apply H. by apply list_elem_of_further.
Qed.
End Repack.

Section RepackFacts.
Context (E : env).

(** An archive with its end-of-archive marker is not a file of no bytes. *)
Lemma no_bytes_closed (ms : list member) : no_bytes (TarFile ms true) = false.
Proof. by destruct ms. Qed.

Lemma tar_open_read_plain (p : string) (w : world) :
  match tar_open_read E p false w with
  | (Ok ms, w') =>
      w' = w ∧ unreadable E p = false
      ∧ ∃ c, fs w !! p = Some (File (TarFile ms c)) ∧ no_bytes (TarFile ms c) = false
  | (Raise _, w') => w' = w
  end.
Proof.
  unfold tar_open_read, read_tar, read_file. unfold_M.
  destruct (unreadable E p); [done|].
  destruct (fs w !! p) as [[ct|]|]; try done.
  destruct (no_bytes ct) eqn:Hnb; [done|].
  destruct ct as [d|cd inner|ms cl|enc es]; try done.
  repeat split; eauto.
Qed.

Lemma tar_open_read_ok (p : string) (w : world) (ms : list member) (c : bool) :
  fs w !! p = Some (File (TarFile ms c)) → no_bytes (TarFile ms c) = false →
  unreadable E p = false →
  tar_open_read E p false w = (Ok ms, w).
Proof.
  intros Hp Hnb Hr. unfold tar_open_read, read_tar, read_file. unfold_M.
  by rewrite Hr, Hp, Hnb.
Qed.

(** A file of no bytes is not read as an archive. *)
Lemma tar_open_read_no_bytes (p : string) (w : world) (c : content) (gz : bool) :
  fs w !! p = Some (File c) → no_bytes c = true →
  unreadable E p = false →
  tar_open_read E p gz w = (Raise (ReadError "empty file"), w).
Proof.
  intros Hp Hnb Hr. unfold tar_open_read, read_tar, read_file. unfold_M.
  rewrite Hr, Hp, Hnb. destruct gz; [|done].
  destruct c as [d|cd inner|ms cl|enc es]; try done.
Qed.

Lemma tar_open_write_cases (p : string) (w : world) :
  tar_open_write E p w = (Ok tt, set_fs <[p := File (TarFile [] false)]> w)
    ∧ unwritable E p = false ∧ fs w !! p ≠ Some Dir
  ∨ ∃ e, tar_open_write E p w = (Raise e, w)
         ∧ (unwritable E p = true ∨ fs w !! p = Some Dir).
Proof.
  unfold tar_open_write, create_file.
  destruct (unwritable E p); [right; eauto|].
  destruct (fs w !! p) as [[c|]|]; [left | right | left]; eauto.
Qed.


Lemma copy_kept_unfold (arc temp del : string) (w : world) :
  copy_kept E arc temp del w
  = match tar_open_read E arc false w with
    | (Ok tf_in, w0) =>
        match tar_open_write E temp w0 with
        | (Ok _, w1) =>
            match for_each tf_in (copy_body E temp del) w1 with
            | (Ok _, w2) => tar_close temp w2
            | (Raise e, w2) => (Raise e, w2)
            end
        | (Raise e, w1) => (Raise e, w1)
        end
    | (Raise e, w0) => (Raise e, w0)
    end.
Proof. reflexivity. Qed.

(** Once both archives are open, the copy leaves the new archive behind:
    complete when every copy succeeded, and otherwise without end marker,
    holding the members copied before the failure. *)
Lemma copy_kept_opened (arc temp del : string) (w : world) (ms : list member) (c : bool) :
  fs w !! arc = Some (File (TarFile ms c)) →
  no_bytes (TarFile ms c) = false →
  unreadable E arc = false →
  unwritable E temp = false →
  fs w !! temp ≠ Some Dir →
  ((∃ e k, k `prefix_of` kept del ms
      ∧ copy_kept E arc temp del w
        = (Raise e, set_fs <[temp := File (TarFile k false)]> w))
   ∨ copy_kept E arc temp del w
     = (Ok tt, set_fs <[temp := File (TarFile (kept del ms) true)]> w))
  ∧ ((∀ m, m ∈ ms → copy_fails E (m_name m) = false) →
     copy_kept E arc temp del w
     = (Ok tt, set_fs <[temp := File (TarFile (kept del ms) true)]> w)).
Proof.
  intros Harc Hnb Hr Hw Hdir.
  rewrite copy_kept_unfold, (tar_open_read_ok arc w ms c Harc Hnb Hr).
  destruct (tar_open_write_cases temp w) as [(-> & _ & _)|(e & _ & [Hu|Hd])];
    [|congruence..].
  destruct (copy_loop E temp del ms
              (set_fs <[temp := File (TarFile [] false)]> w) [])
    as (k & Hk & Hfs & Hok & Hall).
  { simpl. apply lookup_insert_eq. }
  rewrite set_fs_twice in Hfs. simpl in Hfs.
  destruct (for_each ms (copy_body E temp del) _) as [[[]|e] w2]; simpl in *; subst w2.
  - rewrite (Hok eq_refl).
    assert (tar_close temp (set_fs <[temp:=File (TarFile (kept del ms) false)]> w)
            = (Ok tt, set_fs <[temp:=File (TarFile (kept del ms) true)]> w)) as ->.
    { unfold tar_close. simpl. rewrite lookup_insert_eq. by rewrite set_fs_twice. }
    split; [by right | done].
  - split; [left; eauto |].
    intros H. by specialize (Hall H).
Qed.


Lemma temp_ne_arc (arc : string) : arc ≠ arc +:+ ".tmp".
Proof. intros H. by apply (app_ne_self arc ".tmp"). Qed.

Lemma repack_unfold (arc del : string) (w : world) :
  repack E arc del w
  = match copy_kept E arc (arc +:+ ".tmp") del w with
    | (Ok _, w') => shutil_move (arc +:+ ".tmp") arc w'
    | (Raise e, w') => (Raise e, w')
    end.
Proof. reflexivity. Qed.



(** A file of no bytes at the archive's path: the repack fails when it
    opens the archive, before the temporary file is opened, and changes
    nothing. *)
Lemma repack_no_bytes (arc del : string) (w : world) (c : content) :
  fs w !! arc = Some (File c) → no_bytes c = true → unreadable E arc = false →
  repack E arc del w = (Raise (ReadError "empty file"), w).
Proof.
  intros Harc Hnb Hr.
  by rewrite repack_unfold, copy_kept_unfold,
    (tar_open_read_no_bytes arc w c false Harc Hnb Hr).
Qed.

End RepackFacts.

Section DeleteFacts.
Context (E : env).


Lemma read_tar_world (c : content) (w : world) : (read_tar c w).2 = w.
Proof.
  unfold read_tar. destruct (no_bytes c); [done|].
  by destruct c as [d|cd inner|ms cl|enc es].
Qed.

(** Opening an archive for reading only reads. *)
Lemma tar_open_read_world (p : string) (gz : bool) (w : world) :
  (tar_open_read E p gz w).2 = w.
Proof.
  unfold tar_open_read, read_file. unfold_M.
  destruct (unreadable E p); [done|].
  destruct (fs w !! p) as [[ct|]|]; try done.
  destruct gz; [|apply read_tar_world].
  destruct ct as [d|cd inner|ms cl|enc es];
    try (by destruct (no_bytes _)).
  destruct cd; try (by destruct (no_bytes _)). apply read_tar_world.
Qed.

Lemma is_tarfile_world (f : string) (w : world) : (is_tarfile E f w).2 = w.
Proof.
  unfold is_tarfile, read_file. unfold_M.
  destruct (unreadable E f); [done|].
  destruct (fs w !! f) as [[ct|]|]; try done.
  destruct ct as [d|cd inner|ms cl|enc es]; try done.
  by destruct inner.
Qed.

(** Listing an archive only reads. *)
Lemma list_entries_world (f : string) (w : world) : (list_entries E f w).2 = w.
Proof.
  unfold list_entries.
  destruct (is_zipfile E f w).
  - unfold zip_open_read, read_file. unfold_M.
    destruct (unreadable E f); [done|].
    destruct (fs w !! f) as [[[]|]|]; done.
  - pose proof (is_tarfile_world f w) as Ht.
    unfold mbind at 1, M_bind at 1, bind at 1.
    destruct (is_tarfile E f w) as [[[]|e] w1]; simpl in Ht; subst w1; try done.
    pose proof (tar_open_read_world f (negb (PyStr.endswith f ".tar")) w) as Hr.
    unfold mbind, M_bind, bind.
    by destruct (tar_open_read E f _ w) as [[ms|e] w1].
Qed.


Lemma repack_opened (arc del : string) (w : world) (ms : list member) (c : bool) :
  fs w !! arc = Some (File (TarFile ms c)) →
  no_bytes (TarFile ms c) = false →
  unreadable E arc = false →
  unwritable E (arc +:+ ".tmp") = false →
  fs w !! (arc +:+ ".tmp") ≠ Some Dir →
  ((∃ e k, k `prefix_of` kept del ms
      ∧ repack E arc del w
        = (Raise e, set_fs <[arc +:+ ".tmp" := File (TarFile k false)]> w))
   ∨ repack E arc del w
     = (Ok tt,
        set_fs (λ f, <[arc := File (TarFile (kept del ms) true)]>
                       (delete (arc +:+ ".tmp") f))
          (set_fs <[arc +:+ ".tmp" := File (TarFile (kept del ms) true)]> w)))
  ∧ ((∀ m, m ∈ ms → copy_fails E (m_name m) = false) →
     ∃ w', repack E arc del w = (Ok tt, w')).
Proof.
  intros Harc Hnb Hr Hw Hd.
  assert (∀ w2, copy_kept E arc (arc +:+ ".tmp") del w
     = (Ok tt, set_fs <[arc +:+ ".tmp" := File (TarFile (kept del ms) true)]> w) →
     w2 = set_fs (λ f, <[arc := File (TarFile (kept del ms) true)]>
                         (delete (arc +:+ ".tmp") f))
            (set_fs <[arc +:+ ".tmp" := File (TarFile (kept del ms) true)]> w) →
     repack E arc del w = (Ok tt, w2)) as Hmove.
  { intros w2 Hc ->. rewrite repack_unfold, Hc. unfold shutil_move. simpl.
    rewrite lookup_insert_eq, lookup_insert_ne, Harc; [done|].
    intros H. by apply (temp_ne_arc arc). }
  destruct (copy_kept_opened E arc _ del w ms c Harc Hnb Hr Hw Hd)
    as [[(e & k & Hk & Hc)|Hc] Hok].
  - split.
    + left. exists e, k. split; [done|]. by rewrite repack_unfold, Hc.
    + intros Hall. specialize (Hok Hall). eauto.
  - split; [right; eauto | eauto].
Qed.

Lemma delete_from_archive_raise (chosen : string) (a : app) (w w1 : world)
    (row : nat) (name : string) (e : exn) :
  current_row (manage a) = Some row →
  table_files (manage a) !! row = Some name →
  repack E (line_manage_path (manage a)) name (show (confirm name) w) = (Raise e, w1) →
  delete_from_archive E true chosen a w
  = (a, show (Critical "Error" ("Failed to repack: " +:+ str e)) w1).
Proof.
  intros Hrow Hname Hrepack.
  unfold delete_from_archive. by rewrite Hrow, Hname, Hrepack.
Qed.


End DeleteFacts.





(** C10. When both archives could be opened (the original is a readable
    tar archive, not a file of no bytes, and the temporary path can be
    created) and the repack then raises, the file at [arc_path + ".tmp"] is
    still there when [delete_from_archive] returns: a tar archive without
    end marker that holds the members copied before the failure. The error
    path only shows the message. *)
Theorem delete_failure_leaves_temp (E : env) (chosen : string) (a : app)
    (w w1 : world) (row : nat) (name : string) (ms : list member) (c : bool)
    (e : exn) :
  current_row (manage a) = Some row →
  table_files (manage a) !! row = Some name →
  fs w !! line_manage_path (manage a) = Some (File (TarFile ms c)) →
  no_bytes (TarFile ms c) = false →
  unreadable E (line_manage_path (manage a)) = false →
  unwritable E (line_manage_path (manage a) +:+ ".tmp") = false →
  fs w !! (line_manage_path (manage a) +:+ ".tmp") ≠ Some Dir →
  repack E (line_manage_path (manage a)) name (show (confirm name) w) = (Raise e, w1) →
  ∃ copied, copied `prefix_of` kept name ms
    ∧ fs (delete_from_archive E true chosen a w).2
        !! (line_manage_path (manage a) +:+ ".tmp")
      = Some (File (TarFile copied false)).
Proof.
  intros Hrow Hname Harc Hnb Hr Hw Hd Hrepack.
  rewrite (delete_from_archive_raise E chosen a w w1 row name e Hrow Hname Hrepack).
  simpl.
  destruct (repack_opened E (line_manage_path (manage a)) name
              (show (confirm name) w) ms c Harc Hnb Hr Hw Hd) as [[(e' & k & Hk & Hc)|Hc] _];
    rewrite Hc in Hrepack; [|discriminate].
  injection Hrepack as _ <-. exists k. split; [done|]. apply lookup_insert_eq.
Qed.

Lemma delete_failure_leaves_temp_witness :
  ∃ copied,
    copied `prefix_of` [Member "a.txt" false (Bytes "A"); Member "b.txt" false (Bytes "B")]
    ∧ fs (delete_from_archive faulty true "" (sample_manage ["ghost.txt"] 0)
            sample_world).2 !! "/tmp/x.tar.tmp"
      = Some (File (TarFile copied false)).
Proof.
  apply (delete_failure_leaves_temp faulty "" (sample_manage ["ghost.txt"] 0)
           sample_world
           (repack faulty "/tmp/x.tar" "ghost.txt"
              (show (confirm "ghost.txt") sample_world)).2
           0 "ghost.txt"
           [Member "a.txt" false (Bytes "A"); Member "b.txt" false (Bytes "B")] true
           (OSError "unexpected end of data: b.txt")).
  - reflexivity.
  - reflexivity.
  - vm_compute. reflexivity.
  - reflexivity.
  - reflexivity.
  - reflexivity.
  - vm_compute. discriminate.
  - vm_compute. reflexivity.
Defined.

Example delete_from_file_of_no_bytes :
  delete_from_archive calm true "" (sample_manage ["a.txt"] 0)
    (World (<["/tmp/x.tar" := File (TarFile [] false)]> (<["/tmp" := Dir]> ∅)) [] [])
  = (sample_manage ["a.txt"] 0,
     World (<["/tmp/x.tar" := File (TarFile [] false)]> (<["/tmp" := Dir]> ∅))
       [confirm "a.txt"; Critical "Error" "Failed to repack: empty file"] []).
Proof. vm_compute. reflexivity. Qed.

Example delete_failure_temp_content :
  fs (delete_from_archive faulty true "" (sample_manage ["ghost.txt"] 0)
        sample_world).2 !! "/tmp/x.tar.tmp"
  = Some (File (TarFile [Member "a.txt" false (Bytes "A")] false)).
Proof. vm_compute. reflexivity. Qed.

(* ===================================================================== *)
(** ** Writing zip archives *)
(* ===================================================================== *)

(** ** Invariants of loops *)

Section Invariants.
Context (P : world → Prop).

Lemma bind_inv {A B} (m : M A) (k : A → M B) (w : world) :
  P (m w).2 → (∀ a w', P w' → P (k a w').2) → P ((m ≫= k) w).2.
Proof.
  intros Hm Hk. unfold mbind, M_bind, bind.
  destruct (m w) as [[a|e] w']; simpl in *; [by apply Hk | done].
Qed.

Lemma for_each_inv {A} (xs : list A) (body : A → M unit) :
  (∀ x w, P w → P (body x w).2) →
  ∀ w, P w → P (for_each xs body w).2.
Proof.
  intros Hbody. induction xs as [|x xs IH]; intros w Hw; [done|].
  rewrite for_each_cons. specialize (Hbody x w Hw).
  destruct (body x w) as [[[]|e] w']; simpl in *; [by apply IH | done].
Qed.

Lemma os_walk_for_inv (fuel : nat) (body : string → list string → list string → M unit) :
  (∀ root dirs filenames w, P w → P (body root dirs filenames w).2) →
  ∀ top w, P w → P (os_walk_for fuel top body w).2.
Proof.
  intros Hbody. induction fuel as [|fuel IH]; intros top w Hw; [done|].
  simpl. unfold mbind, M_bind, bind, get_fs.
  specialize (Hbody top
    (List.filter (λ n, isdir (fs w) (PyStr.join top n)) (listdir (fs w) top))
    (List.filter (λ n, negb (isdir (fs w) (PyStr.join top n))) (listdir (fs w) top))
    w Hw).
  destruct (body top _ _ w) as [[[]|e] w']; simpl in *; [|done].
  apply for_each_inv; [|done]. intros d w2 Hw2. by apply IH.
Qed.

End Invariants.

(** ** Single steps *)

Section Steps.
Context (E : env).

Lemma bind_ok {A B} (m : M A) (k : A → M B) (w w' : world) (x : A) :
  m w = (Ok x, w') → (m ≫= k) w = k x w'.
Proof. intros H. unfold mbind, M_bind, bind. by rewrite H. Qed.

Lemma bind_raise {A B} (m : M A) (k : A → M B) (w w' : world) (e : exn) :
  m w = (Raise e, w') → (m ≫= k) w = (Raise e, w').
Proof. intros H. unfold mbind, M_bind, bind. by rewrite H. Qed.

Lemma open_rb_ok (p : string) (c : content) (w : world) :
  fs w !! p = Some (File c) → unreadable E p = false → open_rb E p w = (Ok tt, w).
Proof. intros Hp Hr. unfold open_rb. by rewrite Hr, Hp. Qed.

Lemma read_file_ok (p : string) (c : content) (w : world) :
  fs w !! p = Some (File c) → unreadable E p = false → read_file E p w = (Ok c, w).
Proof. intros Hp Hr. unfold read_file. by rewrite Hr, Hp. Qed.

Lemma create_file_ok (p : string) (c : content) (w : world) :
  unwritable E p = false → fs w !! p ≠ Some Dir →
  create_file E p c w = (Ok tt, set_fs <[p := File c]> w).
Proof.
  intros Hw Hd. unfold create_file. rewrite Hw.
  by destruct (fs w !! p) as [[?|]|].
Qed.

End Steps.

Section ZipFacts.
Context (E : env).

Lemma zip_write_inv (zf : string) (enc : encryption) (w0 : world)
    (filename arcname : string) (w : world) :
  writing_zip zf enc w0 w → writing_zip zf enc w0 (zip_write E zf filename arcname w).2.
Proof.
  intros (Hp & Hd & es & Hz). unfold zip_write, zip_append, read_file.
  unfold_M.
  destruct (fs w !! filename) as [[c|]|] eqn:Hf; simpl.
  - destruct (unreadable E filename); simpl; [by repeat split; eauto|].
    rewrite Hf, Hz. simpl. repeat split; try done.
    eexists. apply lookup_insert_eq.
  - rewrite Hz. simpl. repeat split; try done. eexists. apply lookup_insert_eq.
  - repeat split; eauto.
Qed.

Lemma write_to_zip_inv (zf : string) (enc : encryption) (w0 : world)
    (files : list string) (recursive : bool) (exclude : string) (w : world) :
  writing_zip zf enc w0 w →
  writing_zip zf enc w0 (_write_to_zip E zf files recursive exclude w).2.
Proof.
  unfold _write_to_zip. apply for_each_inv. clear w.
  intros f w Hw. unfold mbind at 1, M_bind at 1, bind at 1, get_fs.
  destruct (isfile (fs w) f).
  - destruct (negb _); [by apply zip_write_inv | done].
  - destruct (isdir (fs w) f); [|done].
    destruct recursive; [|by apply zip_write_inv].
    apply os_walk_for_inv; [|done].
    intros root dirs filenames w1 Hw1. apply for_each_inv; [|done].
    intros filename w2 Hw2.
    destruct (negb _); [by apply zip_write_inv | done].
Qed.

End ZipFacts.

Lemma truthy_ne (s : string) : s ≠ "" → truthy s = true.
Proof. intros H. unfold truthy. by destruct (String.eqb_spec s ""). Qed.

Section PyzipperTier.
Context (E : env).

(** What the first strategy leaves behind: no process is started, and the
    filesystem is either untouched or holds at the destination a zip file
    protected by AES under the password. *)
Lemma pyzipper_tier_world (files : list string) (dest pwd : string)
    (recursive : bool) (exclude : string) (w : world) :
  let tier := zip_open_write E dest (AES "") ;;
              zip_setpassword dest pwd ;;
              _write_to_zip E dest files recursive exclude in
  procs (tier w).2 = procs w
  ∧ (fs (tier w).2 = fs w
     ∨ ∃ es, fs (tier w).2 !! dest = Some (File (ZipFile (AES pwd) es))).
Proof.
  intros tier. subst tier.
  unfold mbind, M_bind, bind, zip_open_write, create_file.
  destruct (unwritable E dest); [by eauto|].
  assert (∀ w1, fs w1 = <[dest := File (ZipFile (AES "") [])]> (fs w) →
                procs w1 = procs w →
    procs (let (r0, w'0) := zip_setpassword dest pwd w1 in
           match r0 with
           | Ok _ => _write_to_zip E dest files recursive exclude w'0
           | Raise e => (Raise e, w'0)
           end).2 = procs w
    ∧ ∃ es, fs (let (r0, w'0) := zip_setpassword dest pwd w1 in
                match r0 with
                | Ok _ => _write_to_zip E dest files recursive exclude w'0
                | Raise e => (Raise e, w'0)
                end).2 !! dest = Some (File (ZipFile (AES pwd) es))) as Hrest.
  { intros w1 Hfs Hprocs. unfold zip_setpassword.
    rewrite Hfs, lookup_insert_eq.
    match goal with |- context [_write_to_zip E dest files recursive exclude ?w2] =>
      destruct (write_to_zip_inv E dest (AES pwd) w2 files recursive exclude w2)
        as (Hp & _ & es & Hz)
    end.
    { repeat split. eexists. apply lookup_insert_eq. }
    rewrite Hp. split; [done | eauto]. }
  destruct (fs w !! dest) as [[]|] eqn:Hdest; [|by eauto|].
  all: destruct (Hrest (set_fs <[dest:=File (ZipFile (AES "") [])]> w)) as [Hp Hz];
    [done | done | split; [exact Hp | right; exact Hz]].
Qed.

(** The first strategy up to its first input: the archive is opened and the
    password set. *)
Lemma pyzipper_tier_opened (files : list string) (dest pwd : string)
    (recursive : bool) (exclude : string) (w : world) :
  unwritable E dest = false →
  fs w !! dest ≠ Some Dir →
  (zip_open_write E dest (AES "") ;;
   zip_setpassword dest pwd ;;
   _write_to_zip E dest files recursive exclude) w
  = _write_to_zip E dest files recursive exclude
      (set_fs <[dest := File (ZipFile (AES pwd) [])]> w).
Proof.
  intros Hw Hd. unfold zip_open_write.
  rewrite (bind_ok _ _ w _ tt (create_file_ok E dest _ w Hw Hd)).
  assert (zip_setpassword dest pwd (set_fs <[dest := File (ZipFile (AES "") [])]> w)
          = (Ok tt, set_fs <[dest := File (ZipFile (AES pwd) [])]> w)) as Hpwd.
  { unfold zip_setpassword. simpl. rewrite lookup_insert_eq. by rewrite set_fs_twice. }
  by rewrite (bind_ok _ _ _ _ tt Hpwd).
Qed.

(** A listed regular file that cannot be read stops [_write_to_zip] at
    once. *)
Lemma write_to_zip_unreadable (zf f : string) (rest : list string)
    (recursive : bool) (exclude : string) (c : content) (w : world) :
  fs w !! f = Some (File c) →
  unreadable E f = true →
  _should_exclude f (Some exclude) = false →
  _write_to_zip E zf (f :: rest) recursive exclude w = (Raise (PermissionError f), w).
Proof.
  intros Hf Hr Hex. unfold _write_to_zip. rewrite for_each_cons.
  rewrite (bind_ok get_fs _ w w (fs w) eq_refl).
  unfold isfile. rewrite Hf, Hex. cbn [negb].
  unfold zip_write. rewrite (bind_ok get_fs _ w w (fs w) eq_refl), Hf.
  assert (read_file E f w = (Raise (PermissionError f), w)) as Hread.
  { unfold read_file. by rewrite Hr. }
  by rewrite (bind_raise _ _ w w _ Hread).
Qed.

End PyzipperTier.

(** C6. With pyzipper installed and a non-empty password, [create_zip] is
    its first strategy and nothing else. What the steps of that strategy do
    (opening the destination as an AES zip file, setting the password,
    writing the inputs) decides the outcome: when they all return,
    [create_zip] returns with the world they left, and when one of them
    raises, [create_zip] raises an exception whose text is
    "pyzipper error: " followed by the text of that failure, in the world
    as the failure left it. So a destination that cannot be opened is
    reported with its permission error and nothing is written, and a
    listed file that cannot be read is reported with its own error, the
    archive opened so far staying behind. No process is started (the [zip]
    command is never tried), a normal return leaves an AES-protected
    archive at the destination, and in no case does the destination hold
    an archive of the plain zip writer made by this call: the filesystem
    is untouched or the destination is AES-protected. *)
Theorem create_zip_pyzipper_failure_is_final (E : env) (files : list string)
    (dest pwd : string) (recursive : bool) (exclude : string) (w : world) :
  HAS_PYZIPPER E = true →
  pwd ≠ "" →
  create_zip E files dest pwd recursive exclude w
  = match (zip_open_write E dest (AES "") ;;
           zip_setpassword dest pwd ;;
           _write_to_zip E dest files recursive exclude) w with
    | (Ok _, w') => (Ok tt, w')
    | (Raise e, w') => (Raise (Exception ("pyzipper error: " +:+ str e)), w')
    end
  ∧ (unwritable E dest = true →
     create_zip E files dest pwd recursive exclude w
     = (Raise (Exception ("pyzipper error: " +:+ str (PermissionError dest))), w))
  ∧ (∀ f rest c,
       files = f :: rest →
       unwritable E dest = false → fs w !! dest ≠ Some Dir →
       fs w !! f = Some (File c) → f ≠ dest →
       unreadable E f = true →
       _should_exclude f (Some exclude) = false →
       create_zip E files dest pwd recursive exclude w
       = (Raise (Exception ("pyzipper error: " +:+ str (PermissionError f))),
          set_fs <[dest := File (ZipFile (AES pwd) [])]> w))
  ∧ ((create_zip E files dest pwd recursive exclude w).1 = Ok tt →
     ∃ es, fs (create_zip E files dest pwd recursive exclude w).2 !! dest
           = Some (File (ZipFile (AES pwd) es)))
  ∧ procs (create_zip E files dest pwd recursive exclude w).2 = procs w
  ∧ (fs (create_zip E files dest pwd recursive exclude w).2 = fs w
     ∨ ∃ es, fs (create_zip E files dest pwd recursive exclude w).2 !! dest
             = Some (File (ZipFile (AES pwd) es))).
Proof.
  intros Hpz Hpwd.
  set (tier := zip_open_write E dest (AES "") ;;
               zip_setpassword dest pwd ;;
               _write_to_zip E dest files recursive exclude).
  assert (create_zip E files dest pwd recursive exclude w
          = match tier w with
            | (Ok _, w') => (Ok tt, w')
            | (Raise e, w') => (Raise (Exception ("pyzipper error: " +:+ str e)), w')
            end) as Heq.
  { unfold create_zip. rewrite Hpz, (truthy_ne pwd Hpwd). cbn [andb].
    unfold try_except. fold tier. by destruct (tier w) as [[[]|e] w']. }
  destruct (pyzipper_tier_world E files dest pwd recursive exclude w) as [Hprocs Hfs].
  fold tier in Hprocs, Hfs.
  split; [exact Heq|]. split; [|split; [|split; [|split]]].
  - intros Hu. rewrite Heq. subst tier.
    assert (zip_open_write E dest (AES "") w = (Raise (PermissionError dest), w)) as Hopen.
    { unfold zip_open_write, create_file. by rewrite Hu. }
    by rewrite (bind_raise _ _ w w _ Hopen).
  - intros f rest c -> Hw Hd Hf Hne Hr Hex. rewrite Heq. subst tier.
    rewrite (pyzipper_tier_opened E (f :: rest) dest pwd recursive exclude w Hw Hd).
    rewrite (write_to_zip_unreadable E dest f rest recursive exclude c); [done| |done..].
    simpl. by rewrite lookup_insert_ne.
  - rewrite Heq. intros Hok.
    destruct (unwritable E dest) eqn:Hw.
    { exfalso. revert Hok. subst tier.
      assert (zip_open_write E dest (AES "") w = (Raise (PermissionError dest), w))
        as Hopen.
      { unfold zip_open_write, create_file. by rewrite Hw. }
      by rewrite (bind_raise _ _ w w _ Hopen). }
    assert (fs w !! dest = Some Dir ∨ fs w !! dest ≠ Some Dir) as [Hdir|Hd].
    { destruct (fs w !! dest) as [[cd|]|]; [right|left|right]; done. }
    { exfalso. revert Hok. subst tier.
      assert (zip_open_write E dest (AES "") w = (Raise (IsADirectoryError dest), w))
        as Hopen.
      { unfold zip_open_write, create_file. by rewrite Hw, Hdir. }
      by rewrite (bind_raise _ _ w w _ Hopen). }
    subst tier.
    rewrite (pyzipper_tier_opened E files dest pwd recursive exclude w Hw Hd).
    set (w2 := set_fs <[dest := File (ZipFile (AES pwd) [])]> w).
    destruct (write_to_zip_inv E dest (AES pwd) w2 files recursive exclude w2)
      as (_ & _ & es & Hz).
    { repeat split. eexists. apply lookup_insert_eq. }
    destruct (_write_to_zip E dest files recursive exclude w2) as [[[]|e] w'];
      simpl in *; eauto.
  - rewrite Heq. by destruct (tier w) as [[[]|e] w'].
  - rewrite Heq. by destruct (tier w) as [[[]|e] w'].
Qed.

Lemma create_zip_pyzipper_failure_is_final_witness :
  create_zip with_pyzipper_locked ["/tmp/b.tmp"; "/tmp/a.txt"] "/tmp/out.zip" "secret"
    false "" (World sample_files [] [])
  = (Raise (Exception ("pyzipper error: " +:+ str (PermissionError "/tmp/b.tmp"))),
     set_fs <["/tmp/out.zip" := File (ZipFile (AES "secret") [])]>
       (World sample_files [] [])).
Proof.
  destruct (create_zip_pyzipper_failure_is_final with_pyzipper_locked
              ["/tmp/b.tmp"; "/tmp/a.txt"] "/tmp/out.zip" "secret" false ""
              (World sample_files [] [])) as (_ & _ & H & _).
  - reflexivity.
  - discriminate.
  - apply (H "/tmp/b.tmp" ["/tmp/a.txt"] (Bytes "B")).
    + reflexivity.
    + reflexivity.
    + vm_compute. discriminate.
    + vm_compute. reflexivity.
    + discriminate.
    + reflexivity.
    + reflexivity.
Defined.

Example pyzipper_failure_reported :
  create_zip with_pyzipper_locked ["/tmp/a.txt"; "/tmp/b.tmp"] "/tmp/out.zip"
    "secret" false "" (World sample_files [] [])
  = (Raise (Exception "pyzipper error: [Errno 13] Permission denied: '/tmp/b.tmp'"),
     World (<["/tmp/out.zip" :=
               File (ZipFile (AES "secret") [Member "a.txt" false (Bytes "A")])]>
              sample_files) [] []).
Proof. vm_compute. reflexivity. Qed.

(* ===================================================================== *)
(** ** Single-input formats *)
(* ===================================================================== *)

Example gzip_two_inputs_request :
  combo_format (create gzip_two_inputs) = "Gzip"
  ∧ (multi <$> format_lookup "Gzip") = Some false
  ∧ file_list (create gzip_two_inputs) = ["/tmp/a.txt"; "/tmp/b.tmp"]
  ∧ destination_path (create gzip_two_inputs) = "/tmp/out.gz".
Proof. vm_compute. done. Qed.

Section CreateFacts.
Context (E : env).

Lemma create_single_compress_ok (input_file dest : string) (c : codec)
    (data : content) (w : world) :
  fs w !! input_file = Some (File data) →
  unreadable E input_file = false →
  unwritable E dest = false →
  fs w !! dest ≠ Some Dir →
  create_single_compress E input_file dest c w
  = (Ok tt,
     set_fs <[dest := File (Packed c (if decide (input_file = dest)
                                      then Bytes "" else data))]> w).
Proof.
  intros Hin Hr Hw Hd. unfold create_single_compress, open_rb, codec_open_wb,
    create_file, copy_compress, read_file, rewrite_file. unfold_M.
  rewrite Hr, Hin, Hw.
  assert (∀ w1 : world, fs w1 = <[dest := File (Bytes "")]> (fs w) →
     dialogs w1 = dialogs w → procs w1 = procs w →
     (let (r, w') :=
        match fs w1 !! input_file with
        | Some (File c0) => (Ok c0, w1)
        | Some Dir => (Raise (IsADirectoryError input_file), w1)
        | None => (Raise (FileNotFoundError input_file), w1)
        end in
      match r with
      | Ok a => (Ok (), set_fs <[dest:=File (Packed c a)]> w')
      | Raise e => (Raise e, w')
      end)
     = (Ok tt, set_fs <[dest := File (Packed c (if decide (input_file = dest)
                                      then Bytes "" else data))]> w)) as Hrest.
  { intros w1 Hfs Hdl Hpr. rewrite Hfs. destruct w1 as [f1 d1 p1]. simpl in *. subst.
    case_decide as Heq.
    - subst. rewrite lookup_insert_eq. unfold set_fs. simpl.
      by rewrite insert_insert_eq.
    - rewrite lookup_insert_ne, Hin by done. unfold set_fs. simpl.
      by rewrite insert_insert_eq. }
  destruct (fs w !! dest) as [[cd|]|] eqn:Hdest; [|done|]; by apply Hrest.
Qed.

(** The branch of [dispatch_format] for a format that compresses one
    file: [files[0]] is compressed, whatever follows it in the list. *)
Lemma dispatch_format_single (fmt : string) (c : codec) (f : string)
    (rest : list string) (dest pwd : string) (recursive : bool) (exclude : string)
    (data : content) (w : world) :
  codec_of fmt = Some c →
  fs w !! f = Some (File data) →
  f ≠ dest →
  unreadable E f = false →
  unwritable E dest = false →
  fs w !! dest ≠ Some Dir →
  dispatch_format E fmt (f :: rest) dest pwd recursive exclude w
  = (Ok true, set_fs <[dest := File (Packed c data)]> w).
Proof.
  intros Hc Hf Hne Hr Hw Hd.
  pose proof (create_single_compress_ok f dest c data w Hf Hr Hw Hd) as Hrun.
  rewrite decide_False in Hrun by done.
  unfold dispatch_format, codec_of in *.
  destruct (String.eqb_spec fmt "Zip") as [->|_]; [done|].
  destruct (String.eqb_spec fmt "Tar") as [->|_]; [done|].
  destruct (fmt =? "Gzip");
    [|destruct (fmt =? "Bzip2"); [|destruct (fmt =? "Xz"); [|done]]];
    injection Hc as <-; unfold_M; simpl; by rewrite Hrun.
Qed.

End CreateFacts.

(** With Gzip and two input paths [process_archive_action] raises
    nothing, reports success and writes the compressed first input to the
    destination. *)
Lemma gzip_two_inputs_creates_archive :
  (length (file_list (create gzip_two_inputs)) > 1)%nat
  ∧ (multi <$> format_lookup (combo_format (create gzip_two_inputs))) = Some false
  ∧ dialogs (process_archive_action calm gzip_two_inputs (World sample_files [] [])).2
    = [Information "Success" "Archive created successfully."]
  ∧ fs (process_archive_action calm gzip_two_inputs (World sample_files [] [])).2
      !! "/tmp/out.gz"
    = Some (File (Packed GZ (Bytes "A"))).
Proof. vm_compute. repeat split; lia. Qed.

Lemma add_file_items_length (files items : list string) :
  (length (foldl (λ items f, add_file_item f items) items files)
   ≤ length items + length files)%nat.
Proof.
  revert items. induction files as [|f files IH]; intros items; simpl; [lia|].
  etrans; [apply IH|]. unfold add_file_item.
  destruct (existsb _ _); [lia|]. rewrite length_app. simpl. lia.
Qed.

(** The formats that compress one file are those of [FORMAT_CONFIG] that
    take a single input. *)
Lemma codec_of_single (fmt : string) (c : codec) :
  codec_of fmt = Some c →
  ∃ cfg, format_lookup fmt = Some cfg ∧ multi cfg = false.
Proof.
  unfold codec_of.
  destruct (String.eqb_spec fmt "Gzip") as [->|_]; [by eexists|].
  destruct (String.eqb_spec fmt "Bzip2") as [->|_]; [by eexists|].
  destruct (String.eqb_spec fmt "Xz") as [->|_]; [by eexists|done].
Qed.

(** The check of [on_format_changed]: once it ran for the text now shown,
    a format that takes a single input has at most one path listed. *)
Lemma on_format_changed_single_ok (text : string) (a : app) (w : world) :
  single_ok (on_format_changed text (with_create (set_combo_format text) a) w).1
  ∧ fs (on_format_changed text (with_create (set_combo_format text) a) w).2 = fs w.
Proof.
  unfold on_format_changed.
  destruct (format_lookup text) as [cfg|] eqn:Hcfg; simpl.
  - destruct (negb (multi cfg)) eqn:Hm; simpl.
    + destruct (Nat.ltb_spec 1 (length (file_list (create a)))); simpl.
      * split; [|done]. intros cfg' _ _. simpl. lia.
      * split; [|done]. intros cfg' _ _. simpl. lia.
    + split; [|done]. intros cfg' Hcfg' Hmulti. simpl in Hcfg'.
      rewrite Hcfg in Hcfg'. injection Hcfg' as <-.
      rewrite Hmulti in Hm. done.
  - split; [|done]. intros cfg' Hcfg'. simpl in Hcfg'. congruence.
Qed.

(** The check of [add_files_action]: it never makes the list of a format
    that takes a single input longer than one path. *)
Lemma add_files_action_single_ok (files : list string) (a : app) (w : world) :
  single_ok a →
  single_ok (add_files_action files a w).1
  ∧ fs (add_files_action files a w).2 = fs w.
Proof.
  intros Hok. unfold add_files_action.
  destruct (format_lookup (combo_format (create a))) as [cfg|] eqn:Hcfg; [|done].
  destruct files as [|f files]; [done|].
  destruct (negb (multi cfg)) eqn:Hm; simpl.
  - destruct (Nat.ltb_spec 0 (length (file_list (create a)))); simpl; [done|].
    destruct (Nat.ltb_spec 1 (S (length files))); simpl; [done|].
    split; [|done]. intros cfg' _ _. simpl.
    pose proof (add_file_items_length files (add_file_item f (file_list (create a)))).
    assert (file_list (create a) = []) as Hnil.
    { destruct (file_list (create a)); [done | simpl in *; lia]. }
    rewrite Hnil in *. simpl in *. lia.
  - split; [|done]. intros cfg' Hcfg' Hmulti. simpl in Hcfg'.
    rewrite Hcfg in Hcfg'. injection Hcfg' as <-. rewrite Hmulti in Hm. done.
Qed.

(** For a format that takes a single input [add_files_action] refuses a
    selection that would list more than one path. *)
Lemma add_files_action_refuses (files : list string) (cfg : format_config)
    (a : app) (w : world) :
  format_lookup (combo_format (create a)) = Some cfg → multi cfg = false →
  (length (file_list (create a)) + length files > 1)%nat → files ≠ [] →
  add_files_action files a w
  = (a, show (Critical "Error"
                (combo_format (create a) +:+ " allows only ONE input file.")) w).
Proof.
  intros Hcfg Hmulti Hlen Hfiles. unfold add_files_action.
  rewrite Hcfg, Hmulti. destruct files as [|f files]; [done|]. simpl.
  destruct (Nat.ltb_spec 0 (length (file_list (create a)))); simpl; [done|].
  destruct (Nat.ltb_spec 1 (S (length files))); simpl; [done|].
  simpl in Hlen. lia.
Qed.

Example single_input_refused :
  add_files_action ["/tmp/a.txt"; "/tmp/b.tmp"]
    (choose_format "Gzip" init (World sample_files [] [])).1 (World sample_files [] [])
  = ((choose_format "Gzip" init (World sample_files [] [])).1,
     World sample_files [Critical "Error" "Gzip allows only ONE input file."] []).
Proof. vm_compute. reflexivity. Qed.

(** Dropping two distinct paths on an empty list lists both, whatever the
    format: [dropEvent] looks at the list only. *)
Lemma dropEvent_two (f g : string) (a : app) :
  file_list (create a) = [] → f ≠ g →
  file_list (create (dropEvent [f; g] a)) = [f; g].
Proof.
  intros Hnil Hne. unfold dropEvent, add_file_items. simpl. rewrite Hnil.
  unfold add_file_item. simpl.
  destruct (String.eqb_spec g f) as [Heq|_]; [by subst|done].
Qed.

Section SingleInput.
Context (E : env).

(** [process_archive_action] for a format that compresses one file, when
    nothing fails: the first listed path is compressed to the destination,
    success is reported and the form is reset. The length of the list is
    not looked at. *)
Lemma process_archive_action_single (a : app) (w : world) (c : codec) (f : string)
    (rest : list string) (data : content) :
  codec_of (combo_format (create a)) = Some c →
  file_list (create a) = f :: rest →
  destination_path (create a) ≠ "" →
  fs w !! f = Some (File data) →
  f ≠ destination_path (create a) →
  unreadable E f = false →
  unwritable E (destination_path (create a)) = false →
  fs w !! destination_path (create a) ≠ Some Dir →
  process_archive_action E a w
  = (set_status "Ready"
       (with_create (λ c, set_password ""
                            (set_destination "" "Output: (None selected)"
                               (set_file_list [] c))) a),
     show (Information "Success" "Archive created successfully.")
       (set_fs <[destination_path (create a) := File (Packed c data)]> w)).
Proof.
  intros Hc Hfiles Hdest Hf Hne Hr Hw Hd. unfold process_archive_action.
  rewrite Hfiles. simpl. rewrite (truthy_ne _ Hdest). simpl.
  by rewrite (dispatch_format_single E _ c f rest _ _ _ _ data w Hc Hf Hne Hr Hw Hd).
Qed.

End SingleInput.

(** C1 fails on the code. For a format that takes a single input (Gzip,
    Bzip2, Xz) the count of the inputs is checked where files are browsed
    for: [add_files_action] refuses two files with an error message and
    lists nothing. [dropEvent] makes no such check: the same two files,
    dropped on the list, are both listed, and [process_archive_action] then
    does not fail. It compresses the first of them to the destination,
    which is thereby created, reports success and resets the form. *)
Theorem dropped_files_pass_single_input_check (E : env) (a : app) (w : world)
    (c : codec) (f g : string) (data : content) :
  codec_of (combo_format (create a)) = Some c →
  file_list (create a) = [] →
  f ≠ g →
  destination_path (create a) ≠ "" →
  fs w !! f = Some (File data) →
  f ≠ destination_path (create a) →
  unreadable E f = false →
  unwritable E (destination_path (create a)) = false →
  fs w !! destination_path (create a) ≠ Some Dir →
  add_files_action [f; g] a w
  = (a, show (Critical "Error"
                (combo_format (create a) +:+ " allows only ONE input file.")) w)
  ∧ file_list (create (dropEvent [f; g] a)) = [f; g]
  ∧ process_archive_action E (dropEvent [f; g] a) w
    = (set_status "Ready"
         (with_create (λ c, set_password ""
                              (set_destination "" "Output: (None selected)"
                                 (set_file_list [] c))) (dropEvent [f; g] a)),
       show (Information "Success" "Archive created successfully.")
         (set_fs <[destination_path (create a) := File (Packed c data)]> w)).
Proof.
  intros Hc Hnil Hne Hdest Hf Hfd Hr Hw Hd.
  destruct (codec_of_single _ c Hc) as (cfg & Hcfg & Hmulti).
  split; [|split].
  - apply (add_files_action_refuses [f; g] cfg a w Hcfg Hmulti); [|done].
    rewrite Hnil. simpl. lia.
  - by apply dropEvent_two.
  - apply (process_archive_action_single E (dropEvent [f; g] a) w c f [g] data);
      try done.
    by apply dropEvent_two.
Qed.

Lemma dropped_files_pass_single_input_check_witness :
  add_files_action ["/tmp/a.txt"; "/tmp/b.tmp"] gzip_chosen (World sample_files [] [])
  = (gzip_chosen,
     show (Critical "Error"
             (combo_format (create gzip_chosen) +:+ " allows only ONE input file."))
       (World sample_files [] []))
  ∧ file_list (create (dropEvent ["/tmp/a.txt"; "/tmp/b.tmp"] gzip_chosen))
    = ["/tmp/a.txt"; "/tmp/b.tmp"]
  ∧ process_archive_action calm (dropEvent ["/tmp/a.txt"; "/tmp/b.tmp"] gzip_chosen)
      (World sample_files [] [])
    = (set_status "Ready"
         (with_create (λ c, set_password ""
                              (set_destination "" "Output: (None selected)"
                                 (set_file_list [] c)))
            (dropEvent ["/tmp/a.txt"; "/tmp/b.tmp"] gzip_chosen)),
       show (Information "Success" "Archive created successfully.")
         (set_fs <[destination_path (create gzip_chosen)
                   := File (Packed GZ (Bytes "A"))]> (World sample_files [] []))).
Proof.
  apply (dropped_files_pass_single_input_check calm gzip_chosen
           (World sample_files [] []) GZ "/tmp/a.txt" "/tmp/b.tmp" (Bytes "A")).
  - reflexivity.
  - reflexivity.
  - discriminate.
  - discriminate.
  - vm_compute. reflexivity.
  - discriminate.
  - reflexivity.
  - reflexivity.
  - vm_compute. discriminate.
Defined.

(* ===================================================================== *)
(** ** Exclusion on the write paths *)
(* ===================================================================== *)

(** With a password and without pyzipper the exclusion pattern plays no
    part in what [create_zip] does. *)
Lemma create_zip_tool_ignores_exclude (E : env) (files : list string)
    (dest pwd : string) (recursive : bool) (exclude exclude' : string) :
  HAS_PYZIPPER E = false → pwd ≠ "" →
  create_zip E files dest pwd recursive exclude
  = create_zip E files dest pwd recursive exclude'.
Proof.
  intros Hpz Hpwd. unfold create_zip. rewrite Hpz, (truthy_ne pwd Hpwd).
  cbn [andb]. reflexivity.
Qed.

(** C5 fails on the code. Without pyzipper and with a password,
    [create_zip] hands every input to the [zip] command; with the
    exclusion suffix [.tmp] the file [b.tmp], which the filter excludes, is
    an entry of the archive. *)
Theorem zip_command_path_keeps_excluded_file :
  _should_exclude "b.tmp" (Some ".tmp") = true
  ∧ create_zip calm ["/tmp/a.txt"; "/tmp/b.tmp"] "/tmp/out.zip" "secret" false ".tmp"
      (World sample_files [] [])
    = (Ok tt,
       World (<["/tmp/out.zip" :=
                 File (ZipFile (ZipCrypto "secret")
                         [Member "a.txt" false (Bytes "A");
                          Member "b.tmp" false (Bytes "B")])]> sample_files)
             []
             [["zip"; "-h"];
              ["zip"; "-P"; "secret"; "-j"; "/tmp/out.zip"; "/tmp/a.txt"; "/tmp/b.tmp"]]).
Proof. split; vm_compute; reflexivity. Qed.

(** The in-process writer on the same request leaves [b.tmp] out. *)
Example zipfile_path_drops_excluded_file :
  create_zip calm ["/tmp/a.txt"; "/tmp/b.tmp"] "/tmp/out.zip" "" false ".tmp"
    (World sample_files [] [])
  = (Ok tt,
     World (<["/tmp/out.zip" :=
               File (ZipFile Unencrypted [Member "a.txt" false (Bytes "A")])]>
              sample_files) [] []).
Proof. vm_compute; reflexivity. Qed.

(* ===================================================================== *)
(** ** Directories in a tar archive *)
(* ===================================================================== *)


(** The zip writer on the same request stores the entry of the directory
    only. *)
Example create_zip_non_recursive_directory :
  create_zip calm ["/tmp/d"] "/tmp/out.zip" "" false "" (World sample_files [] [])
  = (Ok tt,
     World (<["/tmp/out.zip" :=
               File (ZipFile Unencrypted [Member "d/" true (Bytes "")])]>
              sample_files) [] []).
Proof. vm_compute; reflexivity. Qed.

Example create_tar_recursive :
  (create_tar calm ["/tmp/d"] "/tmp/out.tar" true "" (World sample_files [] [])).1 = Ok tt
  ∧ fs (create_tar calm ["/tmp/d"] "/tmp/out.tar" true "" (World sample_files [] [])).2
      !! "/tmp/out.tar"
    = Some (File (TarFile [Member "d" true (Bytes "");
                           Member "d/sub" true (Bytes "");
                           Member "d/sub/y.txt" false (Bytes "Y");
                           Member "d/x.txt" false (Bytes "X")] true)).
Proof. vm_compute; done. Qed.

Section PathFacts.

Lemma has_sep_basename (p : string) : PyStr.has_sep (PyStr.basename p) = false.
Proof.
  induction p as [|c r IH]; [done|]. cbn [PyStr.basename].
  destruct (PyStr.has_sep r) eqn:Hr; [done|].
  destruct (Ascii.eqb c "/") eqn:Hc; [done|].
  cbn [PyStr.has_sep]. by rewrite Hc, Hr.
Qed.

Lemma lstrip_sep_no_sep (s : string) :
  PyStr.has_sep s = false → PyStr.lstrip_sep s = s.
Proof.
  destruct s as [|c r]; [done|]. cbn [PyStr.has_sep PyStr.lstrip_sep].
  intros H. apply orb_false_elim in H as [-> _]. done.
Qed.



Lemma startswith_sep_has_sep (s : string) :
  PyStr.startswith s "/" = true → PyStr.has_sep s = true.
Proof.
  destruct s as [|c r]; [done|]. cbn [PyStr.startswith PyStr.has_sep].
  rewrite Ascii.eqb_sym. intros H. apply andb_true_iff in H as [-> _]. done.
Qed.






End PathFacts.

Section TarFacts.
Context (E : env) (f0 : gmap string node) (files : list string)
        (dest exclude : string).






End TarFacts.



(* ===================================================================== *)
(** ** Extraction *)
(* ===================================================================== *)

Lemma contains_cons (c : ascii) (r needle : string) :
  PyStr.contains (String c r) needle = false → PyStr.contains r needle = false.
Proof.
  cbn [PyStr.contains]. intros H. apply orb_false_elim in H as [_ H]. exact H.
Qed.

Lemma contains_head (s needle : string) :
  PyStr.contains s needle = false → PyStr.startswith s needle = false.
Proof.
  destruct s; simpl; intros H; by apply orb_false_elim in H as [H _].
Qed.

(** When [.gz] occurs in the name only as its suffix, removing every
    occurrence removes the suffix. *)
Lemma replace_gz_single (stem : string) :
  PyStr.contains stem ".gz" = false →
  PyStr.replace (stem +:+ ".gz") ".gz" "" = stem.
Proof.
  unfold PyStr.replace. induction stem as [|c r IH]; intros Hno; [done|].
  change (String c r +:+ ".gz") with (String c (r +:+ ".gz")).
  assert (PyStr.startswith (String c (r +:+ ".gz")) ".gz" = false) as Hhead.
  { apply contains_head in Hno. clear IH.
    cbn [PyStr.startswith] in Hno |- *.
    destruct (Ascii.eqb "." c); [|done]. cbn [andb] in Hno |- *.
    destruct r as [|c1 r1]; [done|].
    change (String c1 r1 +:+ ".gz") with (String c1 (r1 +:+ ".gz")).
    cbn [PyStr.startswith] in Hno |- *.
    destruct (Ascii.eqb "g" c1); [|done]. cbn [andb] in Hno |- *.
    destruct r1 as [|c2 r2]; [done|].
    change (String c2 r2 +:+ ".gz") with (String c2 (r2 +:+ ".gz")).
    cbn [PyStr.startswith] in Hno |- *.
    destruct (Ascii.eqb "z" c2); [|done]. cbn [andb] in Hno |- *.
    by destruct r2. }
  cbn [PyStr.replace_from]. rewrite Hhead.
  f_equal. apply IH. by apply contains_cons in Hno.
Qed.

(** C8 fails on the code. When the source exists, a destination is given
    and the source path ends with none of [.zip], [.tar], [.tar.gz], [.tgz]
    and [.gz], no branch of [run_extraction] is taken: nothing is
    extracted, no error is raised, and the method reports "Extraction
    complete.". *)
Theorem run_extraction_unknown_suffix_reports_success (E : env) (a : app) (w : world) :
  path_exists (fs w) (line_extract_src (extract a)) = true →
  line_extract_dest (extract a) ≠ "" →
  PyStr.endswith_any (line_extract_src (extract a))
    [".tar.gz"; ".tgz"; ".gz"; ".tar"; ".zip"] = false →
  run_extraction E a w = show (Information "Success" "Extraction complete.") w.
Proof.
  intros Hsrc Hdest Hsuf. unfold run_extraction, extract_by_suffix.
  rewrite Hsrc, (truthy_ne _ Hdest). cbn [negb orb].
  unfold PyStr.endswith_any in *. cbn [existsb] in *.
  repeat (apply orb_false_elim in Hsuf as [? Hsuf]).
  repeat match goal with H : PyStr.endswith _ _ = false |- _ => rewrite H; clear H end.
  reflexivity.
Qed.

Lemma run_extraction_unknown_suffix_reports_success_witness :
  run_extraction calm (extract_request "/tmp/a.bz2" "/tmp/out" "") bz2_world
  = show (Information "Success" "Extraction complete.") bz2_world.
Proof.
  apply (run_extraction_unknown_suffix_reports_success calm
           (extract_request "/tmp/a.bz2" "/tmp/out" "") bz2_world).
  - vm_compute. reflexivity.
  - discriminate.
  - vm_compute. reflexivity.
Defined.

(** C9 fails on the code. The output name is the base name of the source
    with every occurrence of [.gz] removed, not only the trailing one: for
    [/tmp/logs.gz.2024.gz] the output is written to [logs.2024] in the
    destination directory, and no file [logs.gz.2024] is made. *)
Theorem gunzip_output_name_drops_every_gz :
  PyStr.replace (PyStr.basename "/tmp/logs.gz.2024.gz") ".gz" "" = "logs.2024"
  ∧ run_extraction calm (extract_request "/tmp/logs.gz.2024.gz" "/tmp/out" "") gz_world
    = World (<["/tmp/out/logs.2024" := File (Bytes "L")]> (fs gz_world))
            [Information "Success" "Extraction complete."] []
  ∧ fs (run_extraction calm (extract_request "/tmp/logs.gz.2024.gz" "/tmp/out" "")
          gz_world) !! "/tmp/out/logs.gz.2024" = None.
Proof. repeat split; vm_compute; reflexivity. Qed.

Example gunzip_output_name_single_gz :
  run_extraction calm (extract_request "/tmp/notes.txt.gz" "/tmp/out" "")
    (World (<["/tmp/notes.txt.gz" := File (Packed GZ (Bytes "N"))]>
              (<["/tmp/out" := Dir]> ∅)) [] [])
  = World (<["/tmp/out/notes.txt" := File (Bytes "N")]>
             (<["/tmp/notes.txt.gz" := File (Packed GZ (Bytes "N"))]>
                (<["/tmp/out" := Dir]> ∅)))
          [Information "Success" "Extraction complete."] [].
Proof. vm_compute. reflexivity. Qed.

(* ===================================================================== *)
(** ** The file list of the "Create Archive" tab *)
(* ===================================================================== *)

Section ListFacts.

Lemma existsb_eqb_false (p : string) (items : list string) :
  existsb (String.eqb p) items = false → p ∉ items.
Proof.
  induction items as [|x items IH]; simpl; intros H Hin.
  - by apply elem_of_nil in Hin.
  - apply orb_false_elim in H as [Hx H].
    apply elem_of_cons in Hin as [->|Hin]; [by rewrite String.eqb_refl in Hx|].
    by apply IH.
Qed.

Lemma add_file_item_NoDup (p : string) (items : list string) :
  NoDup items → NoDup (add_file_item p items).
Proof.
  intros Hnd. unfold add_file_item.
  destruct (existsb (String.eqb p) items) eqn:Hex; [done|].
  apply NoDup_app. repeat split; [done| |apply NoDup_singleton].
  intros x Hx Hx'. apply list_elem_of_singleton in Hx' as ->.
  by apply existsb_eqb_false in Hex.
Qed.

Lemma add_file_items_NoDup (files : list string) (a : app) :
  NoDup (file_list (create a)) → NoDup (file_list (create (add_file_items files a))).
Proof.
  unfold add_file_items. simpl. generalize (file_list (create a)).
  induction files as [|f files IH]; intros items Hnd; [done|].
  simpl. apply IH. by apply add_file_item_NoDup.
Qed.

Lemma remove_rows_sublist (from : nat) (selected : list nat) (items : list string) :
  remove_rows from selected items `sublist_of` items.
Proof.
  revert from. induction items as [|x items IH]; intros from; simpl; [done|].
  destruct (existsb _ _); [by apply sublist_cons | by apply sublist_skip].
Qed.

End ListFacts.

Section Sessions.
Context (E : env).

Lemma on_format_changed_list (text : string) (a : app) (w : world) :
  file_list (create (on_format_changed text a w).1) = file_list (create a)
  ∨ file_list (create (on_format_changed text a w).1) = [].
Proof.
  unfold on_format_changed. destruct (format_lookup text); [|by left].
  destruct (_ && _); [by right | by left].
Qed.

Lemma process_archive_action_list (a : app) (w : world) :
  file_list (create (process_archive_action E a w).1) = file_list (create a)
  ∨ file_list (create (process_archive_action E a w).1) = [].
Proof.
  unfold process_archive_action.
  destruct (_ =? _)%nat; [by left|].
  destruct (negb _); [by left|].
  destruct (dispatch_format _ _ _ _ _ _ _ _) as [[[]|e] w']; simpl; auto.
Qed.

Lemma handle_NoDup (ev : create_event) (a : app) (w : world) :
  NoDup (file_list (create a)) →
  NoDup (file_list (create (handle E ev a w).1)).
Proof.
  intros Hnd. destruct ev as [files|files|text|path|selected| |]; simpl.
  - by apply add_file_items_NoDup.
  - unfold add_files_action. destruct (format_lookup _); [|done].
    destruct files; [done|]. destruct (_ && _); [done|].
    by apply add_file_items_NoDup.
  - unfold choose_format. destruct (text =? combo_format (create a)); [done|].
    destruct (on_format_changed_list text (with_create (set_combo_format text) a) w)
      as [-> | ->]; [done | apply NoDup_nil_2].
  - unfold set_destination_action. by destruct (truthy path).
  - eapply sublist_NoDup; [exact Hnd|]. simpl. apply remove_rows_sublist.
  - apply NoDup_nil_2.
  - destruct (process_archive_action_list a w) as [-> | ->];
      [done | apply NoDup_nil_2].
Qed.

End Sessions.

(** X1. Whatever the user does on the "Create Archive" tab (dropping files,
    browsing for files, choosing a format, setting the destination,
    removing rows, clearing the list, creating the archive), a file list
    without duplicates stays without duplicates: no path is ever listed
    twice. *)
Theorem session_keeps_file_list_duplicate_free (E : env) (evs : list create_event)
    (a : app) (w : world) :
  NoDup (file_list (create a)) →
  NoDup (file_list (create (session E evs a w).1)).
Proof.
  revert a w. induction evs as [|ev evs IH]; intros a w Hnd; [done|].
  simpl. pose proof (handle_NoDup E ev a w Hnd) as Hstep.
  destruct (handle E ev a w) as [a' w']. by apply IH.
Qed.

Lemma session_keeps_file_list_duplicate_free_witness :
  NoDup (file_list (create
    (session calm [Drop ["/tmp/a.txt"; "/tmp/b.tmp"; "/tmp/a.txt"];
                   Browse ["/tmp/b.tmp"; "/tmp/d"];
                   RemoveSelected [0]]
       init (World sample_files [] [])).1)).
Proof.
  apply (session_keeps_file_list_duplicate_free calm _ init (World sample_files [] [])).
  apply NoDup_nil_2.
Defined.

Example session_file_list :
  file_list (create
    (session calm [Drop ["/tmp/a.txt"; "/tmp/b.tmp"; "/tmp/a.txt"];
                   Browse ["/tmp/b.tmp"; "/tmp/d"];
                   RemoveSelected [0]]
       init (World sample_files [] [])).1)
  = ["/tmp/b.tmp"; "/tmp/d"].
Proof. vm_compute. reflexivity. Qed.

(* ===================================================================== *)
(** ** Creating: the checks before an archive is written *)
(* ===================================================================== *)

(** X2. Without a listed file, or without a destination,
    [process_archive_action] only warns: the form is left as it is,
    nothing is written and no process is started. *)
Theorem process_archive_action_needs_input (E : env) (a : app) (w : world) :
  file_list (create a) = [] ∨ destination_path (create a) = "" →
  ∃ text, process_archive_action E a w = (a, show (Warning "Error" text) w).
Proof.
  intros H. unfold process_archive_action.
  destruct (file_list (create a)) as [|f files] eqn:Hfiles; simpl; [by eauto|].
  destruct H as [H|H]; [done|]. rewrite H. simpl. by eauto.
Qed.

Lemma process_archive_action_needs_input_witness :
  ∃ text, process_archive_action calm (dropEvent ["/tmp/a.txt"] init)
            (World sample_files [] [])
          = (dropEvent ["/tmp/a.txt"] init,
             show (Warning "Error" text) (World sample_files [] [])).
Proof.
  apply (process_archive_action_needs_input calm (dropEvent ["/tmp/a.txt"] init)
           (World sample_files [] [])).
  right. reflexivity.
Defined.

(** X3. For the formats 7z and Rar [process_archive_action] writes
    nothing: it tells that external binaries are required, keeps the file
    list and the destination, and sets the status back to "Ready". *)
Theorem process_archive_action_external_formats (E : env) (a : app) (w : world) :
  file_list (create a) ≠ [] →
  destination_path (create a) ≠ "" →
  combo_format (create a) = "7z" ∨ combo_format (create a) = "Rar" →
  process_archive_action E a w
  = (set_status "Ready" a,
     show (Information "Info"
             (combo_format (create a) +:+ " creation requires external binaries.")) w).
Proof.
  intros Hfiles Hdest Hfmt. unfold process_archive_action.
  destruct (file_list (create a)) as [|f files] eqn:Hl; [done|]. simpl.
  rewrite (truthy_ne _ Hdest). simpl.
  unfold dispatch_format. by destruct Hfmt as [-> | ->].
Qed.

Lemma process_archive_action_external_formats_witness :
  process_archive_action calm
    (set_destination_action "/tmp/out.7z"
       (dropEvent ["/tmp/a.txt"] (choose_format "7z" init (World sample_files [] [])).1))
    (World sample_files [] [])
  = (set_status "Ready"
       (set_destination_action "/tmp/out.7z"
          (dropEvent ["/tmp/a.txt"] (choose_format "7z" init (World sample_files [] [])).1)),
     show (Information "Info" ("7z" +:+ " creation requires external binaries."))
       (World sample_files [] [])).
Proof.
  apply (process_archive_action_external_formats calm
           (set_destination_action "/tmp/out.7z"
              (dropEvent ["/tmp/a.txt"]
                 (choose_format "7z" init (World sample_files [] [])).1))
           (World sample_files [] [])).
  - discriminate.
  - discriminate.
  - left. reflexivity.
Defined.

(** X4. For Gzip, Bzip2 and Xz, when the first listed path is a readable
    regular file other than the destination and the destination can be
    written, [process_archive_action] writes to the destination the
    compressed stream of that file's content and nothing else, reports
    success and resets the form (list, destination and password empty). *)
Theorem process_archive_action_compresses_first (E : env) (a : app) (w : world)
    (c : codec) (f : string) (rest : list string) (data : content) :
  codec_of (combo_format (create a)) = Some c →
  file_list (create a) = f :: rest →
  destination_path (create a) ≠ "" →
  fs w !! f = Some (File data) →
  f ≠ destination_path (create a) →
  unreadable E f = false →
  unwritable E (destination_path (create a)) = false →
  fs w !! destination_path (create a) ≠ Some Dir →
  process_archive_action E a w
  = (set_status "Ready"
       (with_create (λ c, set_password ""
                            (set_destination "" "Output: (None selected)"
                               (set_file_list [] c))) a),
     show (Information "Success" "Archive created successfully.")
       (set_fs <[destination_path (create a) := File (Packed c data)]> w)).
Proof.
  intros Hc Hfiles Hdest Hf Hne Hr Hw Hd. unfold process_archive_action.
  rewrite Hfiles. simpl. rewrite (truthy_ne _ Hdest). simpl.
  pose proof (create_single_compress_ok E f _ c data w Hf Hr Hw Hd) as Hrun.
  rewrite decide_False in Hrun by done.
  unfold dispatch_format, codec_of in *.
  destruct (String.eqb_spec (combo_format (create a)) "Zip") as [Hz|_].
  { rewrite Hz in Hc. done. }
  destruct (String.eqb_spec (combo_format (create a)) "Tar") as [Ht|_].
  { rewrite Ht in Hc. done. }
  destruct (combo_format (create a) =? "Gzip");
    [|destruct (combo_format (create a) =? "Bzip2");
      [|destruct (combo_format (create a) =? "Xz"); [|done]]];
    injection Hc as <-; unfold_M; simpl; by rewrite Hrun.
Qed.

Lemma process_archive_action_compresses_first_witness :
  process_archive_action calm bzip2_one_input (World sample_files [] [])
  = (set_status "Ready"
       (with_create (λ c, set_password ""
                            (set_destination "" "Output: (None selected)"
                               (set_file_list [] c))) bzip2_one_input),
     show (Information "Success" "Archive created successfully.")
       (set_fs <[destination_path (create bzip2_one_input)
                 := File (Packed BZ2 (Bytes "A"))]> (World sample_files [] []))).
Proof.
  apply (process_archive_action_compresses_first calm bzip2_one_input
           (World sample_files [] []) BZ2 "/tmp/a.txt" [] (Bytes "A")).
  - reflexivity.
  - reflexivity.
  - discriminate.
  - vm_compute. reflexivity.
  - discriminate.
  - reflexivity.
  - reflexivity.
  - vm_compute. discriminate.
Defined.

(** X5. Compressing a file onto itself loses its content: the destination
    is opened for writing, and so emptied, before the input is read, and
    what is left is the compressed stream of no data. *)
Theorem create_single_compress_onto_itself (E : env) (f : string) (c : codec)
    (data : content) (w : world) :
  fs w !! f = Some (File data) →
  unreadable E f = false →
  unwritable E f = false →
  create_single_compress E f f c w
  = (Ok tt, set_fs <[f := File (Packed c (Bytes ""))]> w).
Proof.
  intros Hf Hr Hw.
  rewrite (create_single_compress_ok E f f c data w Hf Hr Hw) by congruence.
  by rewrite decide_True.
Qed.

Lemma create_single_compress_onto_itself_witness :
  create_single_compress calm "/tmp/a.txt" "/tmp/a.txt" GZ (World sample_files [] [])
  = (Ok tt,
     set_fs <["/tmp/a.txt" := File (Packed GZ (Bytes ""))]> (World sample_files [] [])).
Proof.
  apply (create_single_compress_onto_itself calm "/tmp/a.txt" GZ (Bytes "A")
           (World sample_files [] [])).
  - vm_compute. reflexivity.
  - reflexivity.
  - reflexivity.
Defined.

(* ===================================================================== *)
(** ** Compressing and uncompressing one file *)
(* ===================================================================== *)

Section SuffixFacts.

Lemma drop_app_add (x a : string) (n : nat) :
  PyStr.drop (String.length x + n) (x +:+ a) = PyStr.drop n a.
Proof. induction x as [|c x IH]; [done|]. exact IH. Qed.

(** Of two suffixes of a string the shorter is a suffix of the longer. *)
Lemma endswith_nested (s a b : string) :
  PyStr.endswith s a = true → PyStr.endswith s b = true →
  (String.length b ≤ String.length a)%nat →
  PyStr.endswith a b = true.
Proof.
  intros Ha Hb Hlen. apply endswith_iff in Ha as [x ->].
  unfold PyStr.endswith in *. apply andb_true_iff in Hb as [_ Hb].
  apply andb_true_iff. split; [by apply Nat.leb_le|].
  rewrite string_length_app in Hb.
  replace (String.length x + String.length a - String.length b)%nat
    with (String.length x + (String.length a - String.length b))%nat in Hb by lia.
  by rewrite drop_app_add in Hb.
Qed.

Lemma ends_with_basename (p : string) : ends_with p (PyStr.basename p).
Proof.
  induction p as [|c r [front IH]]; [by exists ""|]. cbn [PyStr.basename].
  destruct (PyStr.has_sep r).
  - exists (String c front). rewrite IH at 1. done.
  - destruct (Ascii.eqb c "/"); [by exists (String c "") | by exists ""].
Qed.

Lemma ends_with_trans (s a b : string) : ends_with s a → ends_with a b → ends_with s b.
Proof.
  intros [x ->] [y ->]. exists (x +:+ y).
  induction x as [|c x IH]; [done|].
  change (String c (x +:+ y +:+ b) = String c ((x +:+ y) +:+ b)). by rewrite IH.
Qed.

(** A path that ends in [.gz] ends neither in [.zip] nor in [.tar]. *)
Lemma gz_suffix_alone (s : string) :
  PyStr.endswith s ".gz" = true →
  PyStr.endswith s ".zip" = false ∧ PyStr.endswith s ".tar" = false.
Proof.
  intros Hgz. split.
  - destruct (PyStr.endswith s ".zip") eqn:H; [|done].
    by pose proof (endswith_nested s ".zip" ".gz" H Hgz ltac:(simpl; lia)).
  - destruct (PyStr.endswith s ".tar") eqn:H; [|done].
    by pose proof (endswith_nested s ".tar" ".gz" H Hgz ltac:(simpl; lia)).
Qed.

End SuffixFacts.

Section StepFacts.
Context (E : env).

(** Extracting a plain gzip file whose name holds [.gz] once. *)
Lemma gunzip_ok (src dest exclude stem : string) (inner : content) (w : world) :
  PyStr.basename src = stem +:+ ".gz" →
  PyStr.contains stem ".gz" = false →
  PyStr.endswith_any src [".tar.gz"; ".tgz"] = false →
  fs w !! src = Some (File (Packed GZ inner)) →
  unreadable E src = false →
  PyStr.join dest stem ≠ src →
  unwritable E (PyStr.join dest stem) = false →
  fs w !! PyStr.join dest stem ≠ Some Dir →
  extract_by_suffix E src dest exclude w
  = (Ok tt, set_fs <[PyStr.join dest stem := File inner]> w).
Proof.
  intros Hbase Hstem Htgz Hsrc Hr Hne Hw Hd.
  assert (PyStr.endswith src ".gz" = true) as Hgz.
  { apply endswith_iff. eapply ends_with_trans; [apply ends_with_basename|].
    rewrite Hbase. by exists stem. }
  destruct (gz_suffix_alone src Hgz) as [Hzip Htar].
  unfold extract_by_suffix. rewrite Hzip, Htar, Htgz, Hgz, Hbase.
  rewrite (replace_gz_single stem Hstem).
  rewrite (bind_ok _ _ w w tt (open_rb_ok E src _ w Hsrc Hr)).
  rewrite (bind_ok _ _ w _ tt (create_file_ok E _ (Bytes "") w Hw Hd)).
  unfold copy_gunzip.
  assert (fs (set_fs <[PyStr.join dest stem := File (Bytes "")]> w) !! src
          = Some (File (Packed GZ inner))) as Hsrc'.
  { simpl. by rewrite lookup_insert_ne. }
  rewrite (bind_ok _ _ _ _ _ (read_file_ok E src _ _ Hsrc' Hr)).
  unfold rewrite_file, modify_fs, set_fs. simpl. by rewrite insert_insert_eq.
Qed.

End StepFacts.

(** X6. Compressing with Gzip and extracting again gives the content back.
    When a readable regular file is compressed to a destination whose base
    name is a stem followed by [.gz] (a stem without [.gz] in it, and not a
    [.tar.gz] or [.tgz] name), and that destination is then extracted to a
    directory where the stem can be written, the file named by the stem in
    that directory holds the content of the original file, and the
    extraction reports success. *)
Theorem gzip_round_trip (E : env) (a : app) (w : world) (f dest stem : string)
    (data : content) :
  fs w !! f = Some (File data) →
  f ≠ dest →
  unreadable E f = false →
  unwritable E dest = false →
  fs w !! dest ≠ Some Dir →
  PyStr.basename dest = stem +:+ ".gz" →
  PyStr.contains stem ".gz" = false →
  PyStr.endswith_any dest [".tar.gz"; ".tgz"] = false →
  line_extract_src (extract a) = dest →
  line_extract_dest (extract a) ≠ "" →
  PyStr.join (line_extract_dest (extract a)) stem ≠ dest →
  unreadable E dest = false →
  unwritable E (PyStr.join (line_extract_dest (extract a)) stem) = false →
  fs w !! PyStr.join (line_extract_dest (extract a)) stem ≠ Some Dir →
  ∃ w1, create_single_compress E f dest GZ w = (Ok tt, w1)
    ∧ run_extraction E a w1
      = show (Information "Success" "Extraction complete.")
          (set_fs <[PyStr.join (line_extract_dest (extract a)) stem := File data]> w1).
Proof.
  intros Hf Hne Hr Hw Hd Hbase Hstem Htgz Hsrc Hout Hone Hrd Hwo Hdo.
  eexists. split.
  { rewrite (create_single_compress_ok E f dest GZ data w Hf Hr Hw Hd).
    by rewrite decide_False. }
  unfold run_extraction. rewrite Hsrc. unfold path_exists. simpl.
  rewrite lookup_insert_eq, (truthy_ne _ Hout). simpl.
  rewrite (gunzip_ok E dest _ _ stem data); try done.
  - simpl. apply lookup_insert_eq.
  - simpl. by rewrite lookup_insert_ne.
Qed.

Lemma gzip_round_trip_witness :
  ∃ w1, create_single_compress calm "/tmp/a.txt" "/tmp/notes.gz" GZ
          (World sample_files [] []) = (Ok tt, w1)
    ∧ run_extraction calm round_trip_request w1
      = show (Information "Success" "Extraction complete.")
          (set_fs <[PyStr.join (line_extract_dest (extract round_trip_request)) "notes"
                    := File (Bytes "A")]> w1).
Proof.
  apply (gzip_round_trip calm round_trip_request (World sample_files [] [])
           "/tmp/a.txt" "/tmp/notes.gz" "notes" (Bytes "A")).
  - vm_compute. reflexivity.
  - discriminate.
  - reflexivity.
  - reflexivity.
  - vm_compute. discriminate.
  - vm_compute. reflexivity.
  - vm_compute. reflexivity.
  - vm_compute. reflexivity.
  - reflexivity.
  - discriminate.
  - vm_compute. discriminate.
  - reflexivity.
  - reflexivity.
  - vm_compute. discriminate.
Defined.

(* ===================================================================== *)
(** ** Zip archives of plain files *)
(* ===================================================================== *)

Section ZipFiles.
Context (E : env).

Lemma plain_inputs_cons w dest fc inputs :
  plain_inputs E w dest (fc :: inputs) →
  (fs w !! fc.1 = Some (File fc.2) ∧ fc.1 ≠ dest ∧ unreadable E fc.1 = false)
  ∧ plain_inputs E w dest inputs.
Proof.
  intros H. split.
  - destruct fc as [f c]. apply H. apply list_elem_of_here.
  - intros f c Hin. apply H. by apply list_elem_of_further.
Qed.

Lemma plain_inputs_set_dest w dest nd inputs :
  plain_inputs E w dest inputs →
  plain_inputs E (set_fs <[dest := nd]> w) dest inputs.
Proof.
  intros H f c Hin. destruct (H f c Hin) as (Hf & Hne & Hr).
  repeat split; try done. simpl. by rewrite lookup_insert_ne.
Qed.



End ZipFiles.



(** X8. A password without the means to encrypt: when pyzipper is not
    installed and the [zip] command is not found, [create_zip] with a
    password raises an exception that tells to install pyzipper; the only
    thing it did is to try [zip -h], and no file is written. *)
Theorem create_zip_tool_missing (E : env) (files : list string) (dest pwd : string)
    (recursive : bool) (exclude : string) (w : world) :
  HAS_PYZIPPER E = false →
  zip_installed E = false →
  pwd ≠ "" →
  create_zip E files dest pwd recursive exclude w
  = (Raise (Exception "System 'zip' command not found. Please install 'pyzipper' via pip for password support."),
     spawned ["zip"; "-h"] w).
Proof.
  intros Hpz Hzip Hpwd. unfold create_zip.
  rewrite Hpz, (truthy_ne _ Hpwd). cbn [andb].
  unfold try_except, mbind, M_bind, bind, subprocess_run. by rewrite Hzip.
Qed.

Lemma create_zip_tool_missing_witness :
  create_zip bare ["/tmp/a.txt"] "/tmp/out.zip" "secret" false "" (World sample_files [] [])
  = (Raise (Exception "System 'zip' command not found. Please install 'pyzipper' via pip for password support."),
     spawned ["zip"; "-h"] (World sample_files [] [])).
Proof.
  apply (create_zip_tool_missing bare ["/tmp/a.txt"] "/tmp/out.zip" "secret" false ""
           (World sample_files [] [])).
  - reflexivity.
  - reflexivity.
  - discriminate.
Defined.

(* ===================================================================== *)
(** ** The exclusion suffix in a tar archive *)
(* ===================================================================== *)

Section TarExclusion.
Context (E : env) (dest exclude : string).

Lemma filtered_append (m : member) (w : world) :
  filtered_so_far dest exclude w →
  _should_exclude (m_name m) (Some exclude) = false →
  filtered_so_far dest exclude (tar_append dest m w).2.
Proof.
  intros (ms & Hfs & Hms) Hm. unfold tar_append. rewrite Hfs. simpl.
  exists (ms ++ [m]). split; [apply lookup_insert_eq|].
  intros m' Hm'. apply elem_of_app in Hm' as [Hm'|Hm']; [by apply Hms|].
  by apply list_elem_of_singleton in Hm' as ->.
Qed.

Lemma tar_filter_passes (recursive : bool) (f : string) (tarinfo ti : member) :
  tar_filter recursive exclude f tarinfo = Some ti →
  ti = tarinfo ∧ _should_exclude (m_name tarinfo) (Some exclude) = false.
Proof.
  unfold tar_filter. destruct (_ && _); [done|].
  destruct (_should_exclude _ _); [done|]. by intros [= <-].
Qed.

(** Adding a path, with or without recursion, stores only entries that
    passed the filter. *)
Lemma tar_add_filtered (recursive : bool) (f : string) (n : nat) :
  ∀ (name arcname : string) (w : world),
    filtered_so_far dest exclude w →
    filtered_so_far dest exclude
      (tar_add E n dest name arcname (tar_filter recursive exclude f) w).2.
Proof.
  induction n as [|n IH]; intros name arcname w Hw; [done|]. cbn [tar_add].
  destruct (String.eqb name dest); [done|].
  unfold mbind at 1, M_bind at 1, bind at 1, get_fs.
  destruct (fs w !! name) as [nd|]; [|done].
  destruct (tar_filter recursive exclude f _) as [ti|] eqn:Hfilter; [|done].
  apply tar_filter_passes in Hfilter as [-> Hpass]. cbn [m_isdir m_name] in *.
  destruct nd as [c|].
  - apply bind_inv; [|intros c' w' Hw'; by apply filtered_append].
    unfold read_file. destruct (unreadable E name); [done|].
    by destruct (fs w !! name) as [[]|].
  - apply bind_inv; [by apply filtered_append|].
    intros [] w1 Hw1. unfold mbind, M_bind, bind, get_fs.
    apply for_each_inv; [|done]. intros c w2 Hw2. by apply IH.
Qed.

End TarExclusion.

(** X9. The tar writer honours the exclusion suffix. When [create_tar]
    returns normally, with or without recursion, the archive at the
    destination is complete and the name of none of its entries ends with
    a non-empty exclusion suffix. *)
Theorem create_tar_honours_exclusion (E : env) (files : list string)
    (dest : string) (recursive : bool) (exclude : string) (w w' : world) :
  create_tar E files dest recursive exclude w = (Ok tt, w') →
  ∃ ms, fs w' !! dest = Some (File (TarFile ms true))
    ∧ ∀ m, m ∈ ms → _should_exclude (m_name m) (Some exclude) = false.
Proof.
  unfold create_tar, mbind, M_bind, bind. intros Hrun.
  destruct (tar_open_write_cases E dest w) as [(Hopen & _ & _)|(e & Hopen & _)];
    rewrite Hopen in Hrun; [|done].
  match type of Hrun with context [for_each files ?body ?w1] =>
    assert (filtered_so_far dest exclude (for_each files body w1).2) as Hinv;
    [|destruct (for_each files body w1) as [[[]|e] w2]; [|done]]
  end.
  { apply for_each_inv.
    - intros f w1 Hw1. destruct (_should_exclude f (Some exclude)); [done|].
      by apply tar_add_filtered.
    - exists []. split; [apply lookup_insert_eq|].
      intros m Hm. by apply elem_of_nil in Hm. }
  simpl in Hinv. destruct Hinv as (ms & Hfs & Hms).
  unfold tar_close in Hrun. rewrite Hfs in Hrun.
  injection Hrun as <-. exists ms. split; [|done].
  simpl. apply lookup_insert_eq.
Qed.

Lemma create_tar_honours_exclusion_witness :
  ∃ ms, fs (create_tar calm ["/tmp/d"; "/tmp/b.tmp"] "/tmp/out.tar" true ".txt"
              (World sample_files [] [])).2 !! "/tmp/out.tar"
        = Some (File (TarFile ms true))
    ∧ ∀ m, m ∈ ms → _should_exclude (m_name m) (Some ".txt") = false.
Proof.
  apply (create_tar_honours_exclusion calm ["/tmp/d"; "/tmp/b.tmp"] "/tmp/out.tar"
           true ".txt" (World sample_files [] [])
           (create_tar calm ["/tmp/d"; "/tmp/b.tmp"] "/tmp/out.tar" true ".txt"
              (World sample_files [] [])).2).
  vm_compute. reflexivity.
Defined.

Example create_tar_with_exclusion :
  fs (create_tar calm ["/tmp/d"; "/tmp/b.tmp"] "/tmp/out.tar" true ".txt"
        (World sample_files [] [])).2 !! "/tmp/out.tar"
  = Some (File (TarFile [Member "d" true (Bytes ""); Member "d/sub" true (Bytes "");
                         Member "b.tmp" false (Bytes "B")] true)).
Proof. vm_compute. reflexivity. Qed.

(* ===================================================================== *)
(** ** Tar archives of plain files *)
(* ===================================================================== *)

Section TarFiles.
Context (E : env).

(** A path that the filter lets through has a base name that it lets
    through. *)
Lemma should_exclude_basename (f exclude : string) :
  _should_exclude f (Some exclude) = false →
  _should_exclude (PyStr.basename f) (Some exclude) = false.
Proof.
  destruct exclude as [|c ext]; [done|]. cbn [_should_exclude]. intros Hf.
  destruct (PyStr.endswith (PyStr.basename f) (String c ext)) eqn:Hb; [|done].
  apply endswith_iff in Hb.
  pose proof (ends_with_trans _ _ _ (ends_with_basename f) Hb) as Hf'.
  apply endswith_iff in Hf'. congruence.
Qed.

Lemma tar_add_plain_file (n : nat) (dest f exclude : string) (recursive : bool)
    (c : content) (ms : list member) (w : world) :
  f ≠ dest →
  fs w !! f = Some (File c) →
  unreadable E f = false →
  fs w !! dest = Some (File (TarFile ms false)) →
  _should_exclude f (Some exclude) = false →
  tar_add E (S n) dest f (PyStr.basename f) (tar_filter recursive exclude f) w
  = (Ok tt,
     set_fs <[dest := File (TarFile (ms ++ [Member (PyStr.basename f) false c]) false)]> w).
Proof.
  intros Hne Hf Hr Hd Hex. cbn [tar_add].
  apply String.eqb_neq in Hne. rewrite Hne.
  rewrite (bind_ok get_fs _ w w (fs w) eq_refl), Hf.
  rewrite (lstrip_sep_no_sep _ (has_sep_basename f)).
  unfold tar_filter. cbn [m_isdir m_name]. rewrite andb_false_r. cbn [andb].
  rewrite (should_exclude_basename f exclude Hex). cbn [m_isdir m_name].
  rewrite (bind_ok _ _ w w c (read_file_ok E f c w Hf Hr)).
  unfold tar_append. by rewrite Hd.
Qed.

Lemma create_tar_loop_plain (dest exclude : string) (recursive : bool)
    (inputs : list (string * content)) :
  ∀ (w : world) (ms : list member),
    fs w !! dest = Some (File (TarFile ms false)) →
    plain_inputs E w dest inputs →
    for_each (map fst inputs)
      (λ f, if _should_exclude f (Some exclude) then mret tt
            else tar_add E recursion_limit dest f (PyStr.basename f)
                   (tar_filter recursive exclude f)) w
    = (Ok tt,
       set_fs <[dest := File (TarFile (ms ++ map flat_entry (surviving exclude inputs))
                                false)]> w).
Proof.
  induction inputs as [|[f c] inputs IH]; intros w ms Hd Hin.
  - simpl. rewrite app_nil_r, set_fs_id by done. done.
  - apply plain_inputs_cons in Hin as [(Hf & Hne & Hr) Hin]. simpl in Hf, Hne, Hr.
    cbn [map fst]. rewrite for_each_cons.
    unfold surviving. cbn [List.filter fst]. fold (surviving exclude inputs).
    destruct (_should_exclude f (Some exclude)) eqn:Hex; cbn [negb].
    + unfold mret, M_ret, ret. by apply IH.
    + change recursion_limit with (S 999).
      rewrite (tar_add_plain_file 999 dest f exclude recursive c ms w Hne Hf Hr Hd Hex).
      rewrite (IH _ (ms ++ [flat_entry (f, c)])).
      * by rewrite set_fs_twice, <- app_assoc.
      * simpl. apply lookup_insert_eq.
      * by apply plain_inputs_set_dest.
Qed.

(** The archive [create_tar] leaves when all inputs are plain files. *)
Lemma create_tar_plain (inputs : list (string * content))
    (dest : string) (recursive : bool) (exclude : string) (w : world) :
  plain_inputs E w dest inputs →
  unwritable E dest = false →
  fs w !! dest ≠ Some Dir →
  create_tar E (map fst inputs) dest recursive exclude w
  = (Ok tt,
     set_fs <[dest := File (TarFile (map flat_entry (surviving exclude inputs)) true)]> w).
Proof.
  intros Hin Hw Hd. unfold create_tar, tar_open_write.
  rewrite (bind_ok _ _ w _ tt (create_file_ok E dest _ w Hw Hd)).
  assert (fs (set_fs <[dest := File (TarFile [] false)]> w) !! dest
          = Some (File (TarFile [] false))) as Hopen.
  { simpl. apply lookup_insert_eq. }
  rewrite (bind_ok _ _ _ _ tt
             (create_tar_loop_plain dest exclude recursive inputs _ [] Hopen
                (plain_inputs_set_dest E w dest _ inputs Hin))).
  unfold tar_close. simpl. rewrite lookup_insert_eq.
  by rewrite !set_fs_twice.
Qed.

End TarFiles.

(** X10. A tar archive of plain files. When every input is a readable
    regular file and the destination can be written, [create_tar] returns
    normally and the complete archive holds exactly the inputs that the
    exclusion suffix lets through, each under its base name with its
    content, in the order of the list. *)
Theorem create_tar_plain_files (E : env) (inputs : list (string * content))
    (dest : string) (recursive : bool) (exclude : string) (w : world) :
  plain_inputs E w dest inputs →
  unwritable E dest = false →
  fs w !! dest ≠ Some Dir →
  create_tar E (map fst inputs) dest recursive exclude w
  = (Ok tt,
     set_fs <[dest := File (TarFile (map flat_entry (surviving exclude inputs)) true)]> w).
Proof. apply create_tar_plain. Qed.

Lemma create_tar_plain_files_witness :
  create_tar calm (map fst [("/tmp/a.txt", Bytes "A"); ("/tmp/b.tmp", Bytes "B")])
    "/tmp/out.tar" true ".tmp" (World sample_files [] [])
  = (Ok tt,
     set_fs <["/tmp/out.tar" :=
               File (TarFile
                       (map flat_entry
                          (surviving ".tmp"
                             [("/tmp/a.txt", Bytes "A"); ("/tmp/b.tmp", Bytes "B")]))
                       true)]>
       (World sample_files [] [])).
Proof.
  apply (create_tar_plain_files calm
           [("/tmp/a.txt", Bytes "A"); ("/tmp/b.tmp", Bytes "B")]
           "/tmp/out.tar" true ".tmp" (World sample_files [] [])).
  - intros f c Hin.
    apply elem_of_cons in Hin as [[= -> ->]|Hin];
      [|apply elem_of_cons in Hin as [[= -> ->]|Hin]; [|by apply elem_of_nil in Hin]];
      vm_compute; repeat split; discriminate.
  - reflexivity.
  - vm_compute. discriminate.
Defined.

(* ===================================================================== *)
(** ** Extracting archives *)
(* ===================================================================== *)

Section ExtractFacts.
Context (E : env).

(** A path that ends in [.tar.gz] or [.tgz] ends neither in [.zip] nor in
    [.tar]. *)
Lemma tgz_suffix_alone (s : string) :
  PyStr.endswith_any s [".tar.gz"; ".tgz"] = true →
  PyStr.endswith s ".zip" = false ∧ PyStr.endswith s ".tar" = false.
Proof.
  unfold PyStr.endswith_any. cbn [existsb]. rewrite orb_false_r.
  intros H. apply orb_true_iff in H as [H|H]; split.
  - destruct (PyStr.endswith s ".zip") eqn:Hz; [|done].
    by pose proof (endswith_nested s ".tar.gz" ".zip" H Hz ltac:(simpl; lia)).
  - destruct (PyStr.endswith s ".tar") eqn:Ht; [|done].
    by pose proof (endswith_nested s ".tar.gz" ".tar" H Ht ltac:(simpl; lia)).
  - destruct (PyStr.endswith s ".zip") eqn:Hz; [|done].
    by pose proof (endswith_nested s ".tgz" ".zip" H Hz ltac:(simpl; lia)).
  - destruct (PyStr.endswith s ".tar") eqn:Ht; [|done].
    by pose proof (endswith_nested s ".tgz" ".tar" H Ht ltac:(simpl; lia)).
Qed.

Lemma contains_app_r (a b needle : string) :
  PyStr.contains b needle = true → PyStr.contains (a +:+ b) needle = true.
Proof.
  intros H. induction a as [|c a IH]; [done|].
  change (String c a +:+ b) with (String c (a +:+ b)).
  cbn [PyStr.contains]. by rewrite IH, orb_true_r.
Qed.

Lemma find_name (n : string) (es : list member) :
  n ∈ map m_name es →
  ∃ m, List.find (λ m, String.eqb (m_name m) n) es = Some m ∧ m ∈ es.
Proof.
  induction es as [|m es IH]; simpl; intros Hin; [by apply elem_of_nil in Hin|].
  destruct (String.eqb_spec (m_name m) n) as [Heq|Hne].
  - exists m. split; [done | apply list_elem_of_here].
  - apply elem_of_cons in Hin as [Hin|Hin]; [congruence|].
    destruct (IH Hin) as (m' & Hfind & Hm'). exists m'. split; [done|].
    by apply list_elem_of_further.
Qed.

End ExtractFacts.

(** X11. Without an existing source, or without a destination,
    [run_extraction] only warns: nothing is opened and nothing is
    written. *)
Theorem run_extraction_needs_source_and_dest (E : env) (a : app) (w : world) :
  path_exists (fs w) (line_extract_src (extract a)) = false
  ∨ line_extract_dest (extract a) = "" →
  run_extraction E a w
  = show (Warning "Missing Info"
            "Please select source file and destination folder.") w.
Proof.
  intros H. unfold run_extraction. destruct H as [-> | ->]; [done|].
  simpl. by rewrite orb_true_r.
Qed.

Lemma run_extraction_needs_source_and_dest_witness :
  run_extraction calm (extract_request "/tmp/a.bz2" "" "") bz2_world
  = show (Warning "Missing Info"
            "Please select source file and destination folder.") bz2_world.
Proof.
  apply (run_extraction_needs_source_and_dest calm
           (extract_request "/tmp/a.bz2" "" "") bz2_world).
  right. reflexivity.
Defined.

(** X12. A gzip-compressed tar archive is unpacked as a tar archive. When
    the source path ends in [.tar.gz] or [.tgz] and holds a complete
    gzip-compressed tar archive that can be read, [run_extraction] takes
    neither the [.zip], nor the [.tar], nor the plain [.gz] branch: it
    extracts the members whose names the exclusion suffix lets through,
    and reports success, or the error of the extraction. *)
Theorem run_extraction_tar_gz (E : env) (a : app) (w : world)
    (ms : list member) :
  PyStr.endswith_any (line_extract_src (extract a)) [".tar.gz"; ".tgz"] = true →
  fs w !! line_extract_src (extract a) = Some (File (Packed GZ (TarFile ms true))) →
  unreadable E (line_extract_src (extract a)) = false →
  line_extract_dest (extract a) ≠ "" →
  run_extraction E a w
  = match tar_extractall E (line_extract_dest (extract a))
            (List.filter
               (λ m, negb (_should_exclude (m_name m)
                             (Some (PyStr.strip (line_extract_exclude (extract a))))))
               ms) w with
    | (Ok _, w') => show (Information "Success" "Extraction complete.") w'
    | (Raise e, w') => show (Critical "Error" (str e)) w'
    end.
Proof.
  intros Hsuf Hsrc Hr Hdest. unfold run_extraction, path_exists.
  rewrite Hsrc, (truthy_ne _ Hdest). cbn [negb orb].
  destruct (tgz_suffix_alone _ Hsuf) as [Hzip Htar].
  unfold extract_by_suffix. rewrite Hzip, Htar, Hsuf.
  assert (tar_open_read E (line_extract_src (extract a)) true w = (Ok ms, w)) as Hopen.
  { unfold tar_open_read.
    rewrite (bind_ok _ _ w w _ (read_file_ok E _ _ w Hsrc Hr)).
    unfold read_tar. by rewrite no_bytes_closed. }
  by rewrite (bind_ok _ _ w w ms Hopen).
Qed.

Lemma run_extraction_tar_gz_witness :
  run_extraction calm (extract_request "/tmp/x.tgz" "/tmp/out" ".tmp") tgz_world
  = match tar_extractall calm
            (line_extract_dest (extract (extract_request "/tmp/x.tgz" "/tmp/out" ".tmp")))
            (List.filter
               (λ m, negb (_should_exclude (m_name m)
                             (Some (PyStr.strip
                                (line_extract_exclude
                                   (extract (extract_request "/tmp/x.tgz" "/tmp/out" ".tmp")))))))
               [Member "a.txt" false (Bytes "A"); Member "b.tmp" false (Bytes "B")])
            tgz_world with
    | (Ok _, w') => show (Information "Success" "Extraction complete.") w'
    | (Raise e, w') => show (Critical "Error" (str e)) w'
    end.
Proof.
  apply (run_extraction_tar_gz calm (extract_request "/tmp/x.tgz" "/tmp/out" ".tmp")
           tgz_world [Member "a.txt" false (Bytes "A"); Member "b.tmp" false (Bytes "B")]).
  - vm_compute. reflexivity.
  - vm_compute. reflexivity.
  - reflexivity.
  - discriminate.
Defined.

Example run_extraction_tar_gz_result :
  run_extraction calm (extract_request "/tmp/x.tgz" "/tmp/out" ".tmp") tgz_world
  = World (<["/tmp/out/a.txt" := File (Bytes "A")]> (fs tgz_world))
          [Information "Success" "Extraction complete."] [].
Proof. vm_compute. reflexivity. Qed.

(** X13. A zip archive protected by the [zip] command's password cannot be
    extracted. When the source ends in [.zip] and holds such an archive
    whose entries are all files directly at its top, at least one entry
    passes the exclusion filter and the destination is a directory,
    [run_extraction] writes nothing, warns that the file is encrypted, and
    then still shows "Extraction complete.". *)
Theorem run_extraction_encrypted_zip (E : env) (a : app) (w : world)
    (pwd : string) (es : list member) :
  PyStr.endswith (line_extract_src (extract a)) ".zip" = true →
  fs w !! line_extract_src (extract a) = Some (File (ZipFile (ZipCrypto pwd) es)) →
  unreadable E (line_extract_src (extract a)) = false →
  line_extract_dest (extract a) ≠ "" →
  fs w !! line_extract_dest (extract a) = Some Dir →
  (∀ m, m ∈ es → m_isdir m = false ∧ PyStr.has_sep (m_name m) = false) →
  List.filter (λ n, negb (_should_exclude n
                  (Some (PyStr.strip (line_extract_exclude (extract a))))))
    (map m_name es) ≠ [] →
  run_extraction E a w
  = show (Information "Success" "Extraction complete.")
      (show (Warning "Encrypted Zip"
               "This file is encrypted. Please use macOS Finder to extract it.") w).
Proof.
  intros Hsuf Hsrc Hr Hdest Hdir Hfiles Hsome. unfold run_extraction, path_exists.
  rewrite Hsrc, (truthy_ne _ Hdest). cbn [negb orb].
  unfold extract_by_suffix. rewrite Hsuf. unfold try_except.
  assert (zip_open_read E (line_extract_src (extract a)) w = (Ok (ZipCrypto pwd, es), w))
    as Hopen.
  { unfold zip_open_read.
    by rewrite (bind_ok _ _ w w _ (read_file_ok E _ _ w Hsrc Hr)). }
  rewrite (bind_ok _ _ w w _ Hopen).
  assert (∀ n, In n (List.filter (λ n, negb (_should_exclude n
                  (Some (PyStr.strip (line_extract_exclude (extract a))))))
                (map m_name es)) → n ∈ map m_name (rev es)) as Hsub.
  { intros n Hin. apply filter_In in Hin as [Hin _].
    apply list_elem_of_In. rewrite map_rev. by apply in_rev in Hin. }
  destruct (List.filter _ (map m_name es)) as [|n names]; [done|].
  pose proof (Hsub n (or_introl eq_refl)) as Hn.
  apply find_name in Hn as (m & Hfind & Hm).
  unfold zip_extractall. rewrite for_each_cons, Hfind.
  rewrite (proj1 (Hfiles m ltac:(apply list_elem_of_In, in_rev; by apply list_elem_of_In))).
  unfold raise at 1. cbn iota beta.
  rewrite contains_app_r; [done|]. by apply contains_app_r.
Qed.

Lemma run_extraction_encrypted_zip_witness :
  run_extraction calm (extract_request "/tmp/x.zip" "/tmp/out" "") locked_zip_world
  = show (Information "Success" "Extraction complete.")
      (show (Warning "Encrypted Zip"
               "This file is encrypted. Please use macOS Finder to extract it.")
         locked_zip_world).
Proof.
  apply (run_extraction_encrypted_zip calm (extract_request "/tmp/x.zip" "/tmp/out" "")
           locked_zip_world "secret" [Member "a.txt" false (Bytes "A")]).
  - vm_compute. reflexivity.
  - vm_compute. reflexivity.
  - reflexivity.
  - discriminate.
  - vm_compute. reflexivity.
  - intros m Hm. apply list_elem_of_singleton in Hm as ->. split; reflexivity.
  - vm_compute. discriminate.
Defined.

(* ===================================================================== *)
(** ** Loading an archive for management *)
(* ===================================================================== *)

Section ManageFacts.
Context (E : env).

Lemma list_entries_frame (f : string) (w : world) :
  dialogs (list_entries E f w).2 = dialogs w ∧ procs (list_entries E f w).2 = procs w.
Proof. by rewrite list_entries_world. Qed.


Lemma load_unfold (f : string) (a : app) (w : world) :
  f ≠ "" →
  load_archive_for_management E f a w
  = match list_entries E f w with
    | (Ok rows, w') =>
        (with_manage (λ _, ManageTab f rows None "Checksum: Calculating..."
                             (PyStr.endswith f ".tar")
                             (if PyStr.endswith f ".tar" then "Delete Selected"
                              else "Delete Disabled (Compressed)")) a, w')
    | (Raise e, w') =>
        (with_manage (λ _, ManageTab f [] None "Checksum: Calculating..."
                             (PyStr.endswith f ".tar")
                             (if PyStr.endswith f ".tar" then "Delete Selected"
                              else "Delete Disabled (Compressed)")) a,
         show (Critical "Error" ("Could not read archive: " +:+ str e)) w')
    end.
Proof.
  intros Hf. unfold load_archive_for_management. by rewrite (truthy_ne _ Hf).
Qed.




(** A file of no bytes is no tar archive for [tarfile.is_tarfile]. *)
Lemma is_tarfile_no_bytes (f : string) (c : content) (w : world) :
  fs w !! f = Some (File c) → no_bytes c = true → unreadable E f = false →
  is_tarfile E f w = (Ok false, w).
Proof.
  intros Hf Hnb Hr. unfold is_tarfile.
  rewrite (bind_ok _ _ w w _ (read_file_ok E f _ w Hf Hr)).
  destruct c as [d|cd inner|ms cl|enc es]; try done. by rewrite Hnb.
Qed.



End ManageFacts.

(** X14. Loading an archive for management only reads. Whatever file is
    chosen, the filesystem is as before and no process is started; the
    path is shown, no row is selected, the other tabs are untouched, and
    deleting is enabled exactly when the path ends in [.tar]. *)
Theorem load_archive_reads_only (E : env) (f : string) (a : app) (w : world) :
  f ≠ "" →
  fs (load_archive_for_management E f a w).2 = fs w
  ∧ procs (load_archive_for_management E f a w).2 = procs w
  ∧ line_manage_path (manage (load_archive_for_management E f a w).1) = f
  ∧ current_row (manage (load_archive_for_management E f a w).1) = None
  ∧ btn_delete_enabled (manage (load_archive_for_management E f a w).1)
    = PyStr.endswith f ".tar"
  ∧ create (load_archive_for_management E f a w).1 = create a
  ∧ extract (load_archive_for_management E f a w).1 = extract a.
Proof.
  intros Hf. rewrite (load_unfold E f a w Hf).
  pose proof (list_entries_world E f w) as Hw.
  destruct (list_entries E f w) as [[rows|e] w']; simpl in *; by subst.
Qed.

Lemma load_archive_reads_only_witness :
  fs (load_archive_for_management calm "/tmp/x.tar" init sample_world).2 = fs sample_world
  ∧ procs (load_archive_for_management calm "/tmp/x.tar" init sample_world).2
    = procs sample_world
  ∧ line_manage_path (manage (load_archive_for_management calm "/tmp/x.tar" init
                                sample_world).1) = "/tmp/x.tar"
  ∧ current_row (manage (load_archive_for_management calm "/tmp/x.tar" init
                           sample_world).1) = None
  ∧ btn_delete_enabled (manage (load_archive_for_management calm "/tmp/x.tar" init
                                  sample_world).1)
    = PyStr.endswith "/tmp/x.tar" ".tar"
  ∧ create (load_archive_for_management calm "/tmp/x.tar" init sample_world).1
    = create init
  ∧ extract (load_archive_for_management calm "/tmp/x.tar" init sample_world).1
    = extract init.
Proof.
  apply (load_archive_reads_only calm "/tmp/x.tar" init sample_world).
  discriminate.
Defined.





(* ===================================================================== *)
(** ** Deleting a listed entry *)
(* ===================================================================== *)



Example delete_first_of_two :
  fs (delete_from_archive calm true "" (sample_manage ["a.txt"; "b.txt"] 0)
        sample_world).2 !! "/tmp/x.tar"
  = Some (File (TarFile [Member "b.txt" false (Bytes "B")] true)).
Proof. vm_compute. reflexivity. Qed.

(** X18. Nothing is deleted without a selected row or without the user's
    confirmation: the filesystem and the application are left as they
    are. *)
Theorem delete_needs_row_and_confirmation (E : env) (reply : bool) (chosen : string)
    (a : app) (w : world) :
  current_row (manage a) = None ∨ reply = false →
  (delete_from_archive E reply chosen a w).1 = a
  ∧ fs (delete_from_archive E reply chosen a w).2 = fs w
  ∧ procs (delete_from_archive E reply chosen a w).2 = procs w.
Proof.
  intros H. unfold delete_from_archive.
  destruct (current_row (manage a)) as [row|]; [|done].
  destruct H as [H|H]; [done|]. subst reply.
  by destruct (table_files (manage a) !! row).
Qed.

Lemma delete_needs_row_and_confirmation_witness :
  (delete_from_archive calm false "" (sample_manage ["a.txt"; "b.txt"] 0)
     sample_world).1 = sample_manage ["a.txt"; "b.txt"] 0
  ∧ fs (delete_from_archive calm false "" (sample_manage ["a.txt"; "b.txt"] 0)
          sample_world).2 = fs sample_world
  ∧ procs (delete_from_archive calm false "" (sample_manage ["a.txt"; "b.txt"] 0)
             sample_world).2 = procs sample_world.
Proof.
  apply (delete_needs_row_and_confirmation calm false ""
           (sample_manage ["a.txt"; "b.txt"] 0) sample_world).
  right. reflexivity.
Defined.

(** X19. Deleting from a file that is not a plain tar archive fails before
    anything is written: the method shows "Failed to repack", and the
    filesystem is exactly what it was; in particular no temporary file is
    made. *)
Theorem delete_from_other_file_writes_nothing (E : env) (chosen : string) (a : app)
    (w : world) (row : nat) (name : string) :
  current_row (manage a) = Some row →
  table_files (manage a) !! row = Some name →
  (∀ ms c, fs w !! line_manage_path (manage a) ≠ Some (File (TarFile ms c))) →
  (delete_from_archive E true chosen a w).1 = a
  ∧ fs (delete_from_archive E true chosen a w).2 = fs w
  ∧ ∃ msg, dialogs (delete_from_archive E true chosen a w).2
           = dialogs w ++ [confirm name; Critical "Error" ("Failed to repack: " +:+ msg)].
Proof.
  intros Hrow Hname Hnot. unfold delete_from_archive. rewrite Hrow, Hname.
  rewrite repack_unfold, copy_kept_unfold.
  pose proof (tar_open_read_plain E (line_manage_path (manage a))
                (show (confirm name) w)) as Hread.
  destruct (tar_open_read E _ false _) as [[ms|e] w0].
  - destruct Hread as (_ & _ & c & Hc & _). by apply Hnot in Hc.
  - subst w0. simpl. repeat split. exists (str e). by rewrite <- app_assoc.
Qed.

Lemma delete_from_other_file_writes_nothing_witness :
  (delete_from_archive calm true "" (sample_manage ["a.txt"; "b.txt"] 0)
     packed_tar_world).1 = sample_manage ["a.txt"; "b.txt"] 0
  ∧ fs (delete_from_archive calm true "" (sample_manage ["a.txt"; "b.txt"] 0)
          packed_tar_world).2 = fs packed_tar_world
  ∧ ∃ msg, dialogs (delete_from_archive calm true "" (sample_manage ["a.txt"; "b.txt"] 0)
                      packed_tar_world).2
           = dialogs packed_tar_world
             ++ [confirm "a.txt"; Critical "Error" ("Failed to repack: " +:+ msg)].
Proof.
  apply (delete_from_other_file_writes_nothing calm "" (sample_manage ["a.txt"; "b.txt"] 0)
           packed_tar_world 0 "a.txt").
  - reflexivity.
  - reflexivity.
  - intros ms c. vm_compute. discriminate.
Defined.

(* ===================================================================== *)
(** ** Appending to a tar archive *)
(* ===================================================================== *)

Section AppendFacts.
Context (E : env).

Lemma tar_add_file_unfiltered (n : nat) (tf name arcname : string) (c : content)
    (ms : list member) (closed : bool) (w : world) :
  name ≠ tf →
  fs w !! name = Some (File c) →
  unreadable E name = false →
  fs w !! tf = Some (File (TarFile ms closed)) →
  tar_add E (S n) tf name arcname Some w
  = (Ok tt,
     set_fs <[tf := File (TarFile (ms ++ [Member (PyStr.lstrip_sep arcname) false c])
                            closed)]> w).
Proof.
  intros Hne Hf Hr Hd. cbn [tar_add].
  apply String.eqb_neq in Hne. rewrite Hne.
  rewrite (bind_ok get_fs _ w w (fs w) eq_refl), Hf. cbn [m_isdir m_name].
  rewrite (bind_ok _ _ w w c (read_file_ok E name c w Hf Hr)).
  unfold tar_append. by rewrite Hd.
Qed.

Lemma tar_open_append_ok (arc : string) (ms : list member) (w : world) :
  fs w !! arc = Some (File (TarFile ms true)) →
  unreadable E arc = false → unwritable E arc = false →
  tar_open_append E arc w = (Ok tt, w).
Proof. intros Ha Hr Hw. unfold tar_open_append. by rewrite Ha, Hr, Hw. Qed.

Lemma append_by_suffix_tar (arc f : string) (ms : list member) (c : content)
    (w : world) :
  PyStr.endswith arc ".tar" = true →
  fs w !! arc = Some (File (TarFile ms true)) →
  unreadable E arc = false → unwritable E arc = false →
  fs w !! f = Some (File c) → f ≠ arc → unreadable E f = false →
  append_by_suffix E arc f w
  = (Ok true,
     set_fs <[arc := File (TarFile (ms ++ [Member (PyStr.basename f) false c]) true)]> w).
Proof.
  intros Hsuf Ha Hra Hwa Hf Hne Hrf. unfold append_by_suffix. rewrite Hsuf.
  rewrite (bind_ok _ _ w w tt (tar_open_append_ok arc ms w Ha Hra Hwa)).
  change recursion_limit with (S 999).
  rewrite (bind_ok _ _ w _ tt
             (tar_add_file_unfiltered 999 arc f _ c ms true w Hne Hf Hrf Ha)).
  rewrite (lstrip_sep_no_sep _ (has_sep_basename f)).
  unfold tar_close at 1. unfold mbind at 1, M_bind at 1, bind at 1.
  cbn [fs set_fs]. rewrite lookup_insert_eq. by rewrite set_fs_twice.
Qed.

Lemma truthy_false (s : string) : truthy s = false → s = "".
Proof.
  unfold truthy. intros H. apply negb_false_iff in H. by apply String.eqb_eq in H.
Qed.

Lemma append_to_archive_tar (f_to_add chosen : string) (a : app) (w : world)
    (ms : list member) (c : content) :
  f_to_add ≠ "" →
  PyStr.endswith (line_manage_path (manage a)) ".tar" = true →
  fs w !! line_manage_path (manage a) = Some (File (TarFile ms true)) →
  unreadable E (line_manage_path (manage a)) = false →
  unwritable E (line_manage_path (manage a)) = false →
  fs w !! f_to_add = Some (File c) →
  f_to_add ≠ line_manage_path (manage a) →
  unreadable E f_to_add = false →
  append_to_archive E f_to_add chosen a w
  = load_archive_for_management E chosen a
      (show (Information "Success" "File Appended.")
         (set_fs <[line_manage_path (manage a) :=
                   File (TarFile (ms ++ [Member (PyStr.basename f_to_add) false c]) true)]>
            w)).
Proof.
  intros Hf Hsuf Ha Hra Hwa Hfile Hne Hrf. unfold append_to_archive.
  assert (line_manage_path (manage a) ≠ "") as Harc.
  { intros Heq. rewrite Heq in Hsuf. done. }
  rewrite (truthy_ne _ Harc), (truthy_ne _ Hf). cbn [negb].
  by rewrite (append_by_suffix_tar _ f_to_add ms c w Hsuf Ha Hra Hwa Hfile Hne Hrf).
Qed.

End AppendFacts.

(** X20. Appending is refused for other archives. When the loaded path
    ends neither in [.tar] nor in [.zip], [append_to_archive] writes
    nothing and leaves the application as it is; once a file was chosen
    it says that appending is only supported for [.tar] and [.zip]. *)
Theorem append_needs_tar_or_zip (E : env) (f_to_add chosen : string) (a : app)
    (w : world) :
  PyStr.endswith (line_manage_path (manage a)) ".tar" = false →
  PyStr.endswith (line_manage_path (manage a)) ".zip" = false →
  (append_to_archive E f_to_add chosen a w).1 = a
  ∧ fs (append_to_archive E f_to_add chosen a w).2 = fs w
  ∧ (line_manage_path (manage a) ≠ "" → f_to_add ≠ "" →
     append_to_archive E f_to_add chosen a w
     = (a, show (Warning "Error" "Appending is only supported for .tar and .zip.") w)).
Proof.
  intros Htar Hzip. unfold append_to_archive, append_by_suffix.
  rewrite Htar, Hzip.
  destruct (truthy (line_manage_path (manage a))) eqn:Ha; cbn [negb].
  - destruct (truthy f_to_add) eqn:Hf; cbn [negb]; [done|].
    repeat split. intros _ Hne. by apply truthy_false in Hf.
  - repeat split. intros Hne. by apply truthy_false in Ha.
Qed.

Lemma append_needs_tar_or_zip_witness :
  (append_to_archive calm "/tmp/a.txt" ""
     (with_manage (λ _, ManageTab "/tmp/a.bz2" [] None "" false "") init) bz2_world).1
  = with_manage (λ _, ManageTab "/tmp/a.bz2" [] None "" false "") init
  ∧ fs (append_to_archive calm "/tmp/a.txt" ""
          (with_manage (λ _, ManageTab "/tmp/a.bz2" [] None "" false "") init)
          bz2_world).2 = fs bz2_world
  ∧ (line_manage_path
       (manage (with_manage (λ _, ManageTab "/tmp/a.bz2" [] None "" false "") init)) ≠ "" →
     "/tmp/a.txt" ≠ "" →
     append_to_archive calm "/tmp/a.txt" ""
       (with_manage (λ _, ManageTab "/tmp/a.bz2" [] None "" false "") init) bz2_world
     = (with_manage (λ _, ManageTab "/tmp/a.bz2" [] None "" false "") init,
        show (Warning "Error" "Appending is only supported for .tar and .zip.")
          bz2_world)).
Proof.
  apply (append_needs_tar_or_zip calm "/tmp/a.txt" ""
           (with_manage (λ _, ManageTab "/tmp/a.bz2" [] None "" false "") init)
           bz2_world).
  - vm_compute. reflexivity.
  - vm_compute. reflexivity.
Defined.

(** X21. Appending a file to a tar archive. When the loaded path ends in
    [.tar] and holds a complete tar archive that can be read and written,
    and the chosen path is another, readable regular file,
    [append_to_archive] leaves the members as they are, adds after them one
    entry with the base name and the content of the file, reports "File
    Appended." and reloads. *)
Theorem append_to_tar_adds_last (E : env) (f_to_add chosen : string) (a : app)
    (w : world) (ms : list member) (c : content) :
  f_to_add ≠ "" →
  PyStr.endswith (line_manage_path (manage a)) ".tar" = true →
  fs w !! line_manage_path (manage a) = Some (File (TarFile ms true)) →
  unreadable E (line_manage_path (manage a)) = false →
  unwritable E (line_manage_path (manage a)) = false →
  fs w !! f_to_add = Some (File c) →
  f_to_add ≠ line_manage_path (manage a) →
  unreadable E f_to_add = false →
  append_to_archive E f_to_add chosen a w
  = load_archive_for_management E chosen a
      (show (Information "Success" "File Appended.")
         (set_fs <[line_manage_path (manage a) :=
                   File (TarFile (ms ++ [Member (PyStr.basename f_to_add) false c]) true)]>
            w)).
Proof.
  intros Hf Hsuf Ha Hra Hwa Hfile Hne Hrf.
  by apply append_to_archive_tar.
Qed.

Lemma append_to_tar_adds_last_witness :
  append_to_archive calm "/tmp/c.txt" "" (sample_manage ["a.txt"; "b.txt"] 0) append_world
  = load_archive_for_management calm "" (sample_manage ["a.txt"; "b.txt"] 0)
      (show (Information "Success" "File Appended.")
         (set_fs <[line_manage_path (manage (sample_manage ["a.txt"; "b.txt"] 0)) :=
                   File (TarFile ([Member "a.txt" false (Bytes "A");
                                   Member "b.txt" false (Bytes "B")]
                                  ++ [Member (PyStr.basename "/tmp/c.txt") false (Bytes "C")])
                           true)]>
            append_world)).
Proof.
  apply (append_to_tar_adds_last calm "/tmp/c.txt" "" (sample_manage ["a.txt"; "b.txt"] 0)
           append_world).
  - discriminate.
  - vm_compute. reflexivity.
  - vm_compute. reflexivity.
  - reflexivity.
  - reflexivity.
  - vm_compute. reflexivity.
  - discriminate.
  - reflexivity.
Defined.

Example append_to_tar_listing :
  fs (append_to_archive calm "/tmp/c.txt" "" (sample_manage ["a.txt"; "b.txt"] 0)
        append_world).2 !! "/tmp/x.tar"
  = Some (File (TarFile [Member "a.txt" false (Bytes "A");
                         Member "b.txt" false (Bytes "B");
                         Member "c.txt" false (Bytes "C")] true)).
Proof. vm_compute. reflexivity. Qed.



(* ===================================================================== *)
(** ** Zip archives: passwords and appending *)
(* ===================================================================== *)

(** X23. Without a password [create_zip] works in process only, whether
    pyzipper is installed or not and whatever the inputs are: it starts no
    process and shows no message, and the filesystem is either untouched
    or holds at the destination a zip archive without protection. *)
Theorem create_zip_without_password (E : env) (files : list string) (dest : string)
    (recursive : bool) (exclude : string) (w : world) :
  procs (create_zip E files dest "" recursive exclude w).2 = procs w
  ∧ dialogs (create_zip E files dest "" recursive exclude w).2 = dialogs w
  ∧ (fs (create_zip E files dest "" recursive exclude w).2 = fs w
     ∨ ∃ es, fs (create_zip E files dest "" recursive exclude w).2 !! dest
             = Some (File (ZipFile Unencrypted es))).
Proof.
  unfold create_zip. cbn [truthy String.eqb negb andb]. rewrite andb_false_r.
  unfold mbind, M_bind, bind, zip_open_write.
  destruct (unwritable E dest) eqn:Hw.
  { unfold create_file. rewrite Hw. by eauto. }
  assert (fs w !! dest = Some Dir ∨ fs w !! dest ≠ Some Dir) as [Hd|Hd].
  { destruct (fs w !! dest) as [[?|]|]; [right|left|right]; done. }
  { unfold create_file. rewrite Hw, Hd. by eauto. }
  rewrite (create_file_ok E dest _ w Hw Hd).
  match goal with |- context [_write_to_zip E dest files recursive exclude ?w1] =>
    destruct (write_to_zip_inv E dest Unencrypted w1 files recursive exclude w1)
      as (Hp & Hdl & es & Hz)
  end.
  { repeat split. eexists. simpl. apply lookup_insert_eq. }
  rewrite Hp, Hdl. eauto.
Qed.

(** X24. A failing [zip] command. When pyzipper is not installed, [zip] is,
    a password is given and the command exits with a non-zero status,
    [create_zip] raises an exception saying that the system zip command
    failed; both command lines were started and no file is written. *)
Theorem create_zip_tool_fails (E : env) (files : list string) (dest pwd : string)
    (recursive : bool) (exclude : string) (w : world) :
  HAS_PYZIPPER E = false →
  zip_installed E = true →
  pwd ≠ "" →
  zip_command E pwd recursive dest files (fs w) = None →
  create_zip E files dest pwd recursive exclude w
  = (Raise (Exception "System zip command failed. Ensure you have permissions."),
     spawned (zip_cmd files dest pwd recursive) (spawned ["zip"; "-h"] w)).
Proof.
  intros Hpz Hzip Hpwd Hcmd. unfold create_zip.
  rewrite Hpz, (truthy_ne _ Hpwd). cbn [andb].
  unfold try_except, mbind, M_bind, bind, subprocess_run. rewrite Hzip.
  unfold zip_cmd. destruct recursive; simpl; by rewrite Hcmd.
Qed.

Lemma create_zip_tool_fails_witness :
  create_zip calm ["/tmp/missing.txt"] "/tmp/out.zip" "secret" false ""
    (World sample_files [] [])
  = (Raise (Exception "System zip command failed. Ensure you have permissions."),
     spawned (zip_cmd ["/tmp/missing.txt"] "/tmp/out.zip" "secret" false)
       (spawned ["zip"; "-h"] (World sample_files [] []))).
Proof.
  apply (create_zip_tool_fails calm ["/tmp/missing.txt"] "/tmp/out.zip" "secret" false ""
           (World sample_files [] [])).
  - reflexivity.
  - reflexivity.
  - discriminate.
  - vm_compute. reflexivity.
Defined.

Section ZipAppend.
Context (E : env).


End ZipAppend.



(* ===================================================================== *)
(** ** Packing and unpacking again *)
(* ===================================================================== *)

Section ExtractLoop.
Context (E : env).

Lemma string_app_nil_r (s : string) : s +:+ "" = s.
Proof. induction s as [|c s IH]; [done|]. change (String c (s +:+ "") = String c s). by rewrite IH. Qed.

Lemma string_app_assoc (a b c : string) : (a +:+ b) +:+ c = a +:+ (b +:+ c).
Proof.
  induction a as [|x a IH]; [done|].
  change (String x ((a +:+ b) +:+ c) = String x (a +:+ (b +:+ c))). by rewrite IH.
Qed.

Lemma components_from_no_sep (cur s : string) :
  PyStr.has_sep s = false →
  PyStr.components_from cur s
  = if String.eqb (cur +:+ s) "" then [] else [cur +:+ s].
Proof.
  revert cur. induction s as [|c r IH]; intros cur Hs.
  - cbn [PyStr.components_from]. by rewrite string_app_nil_r.
  - cbn [PyStr.has_sep] in Hs. apply orb_false_elim in Hs as [Hc Hr].
    cbn [PyStr.components_from]. rewrite Hc, (IH _ Hr).
    by rewrite string_app_assoc.
Qed.

Lemma components_single (n : string) :
  n ≠ "" → PyStr.has_sep n = false → PyStr.components n = [n].
Proof.
  intros Hne Hs. unfold PyStr.components. rewrite (components_from_no_sep "" n Hs).
  change ("" +:+ n) with n. by destruct (String.eqb_spec n "").
Qed.

Lemma join_no_sep (out n : string) :
  PyStr.has_sep n = false →
  PyStr.join out n
  = if String.eqb out "" || PyStr.endswith out "/" then out +:+ n else out +:+ "/" +:+ n.
Proof.
  intros Hs. unfold PyStr.join.
  destruct (PyStr.startswith n "/") eqn:Hst; [|done].
  apply startswith_sep_has_sep in Hst. congruence.
Qed.

Lemma join_inj (out n1 n2 : string) :
  PyStr.has_sep n1 = false → PyStr.has_sep n2 = false →
  PyStr.join out n1 = PyStr.join out n2 → n1 = n2.
Proof.
  intros H1 H2. rewrite !join_no_sep by done.
  destruct (_ || _); intros Heq.
  - by apply String.app_inj in Heq.
  - apply String.app_inj in Heq. by injection Heq.
Qed.

Lemma join_ne_dir (out n : string) :
  n ≠ "" → PyStr.has_sep n = false → PyStr.join out n ≠ out.
Proof.
  intros Hne Hs. rewrite join_no_sep by done.
  destruct (_ || _); by apply app_ne_self.
Qed.

(** Extracting a flat entry into an existing directory writes its file. *)
Lemma extract_flat_member (out : string) (m : member) (w : world) :
  flat_member m →
  fs w !! out = Some Dir →
  unwritable E (target_of out m) = false →
  fs w !! target_of out m ≠ Some Dir →
  extract_member E out m w
  = (Ok tt, set_fs <[target_of out m := File (m_payload m)]> w).
Proof.
  intros (Hfile & Hne & Hs) Hout Hw Hd. unfold extract_member.
  rewrite (components_single _ Hne Hs). cbn [parents_from foldl].
  assert (makedirs [out] w = (Ok tt, w)) as Hmk.
  { unfold makedirs. rewrite for_each_cons. by rewrite Hout. }
  rewrite (bind_ok _ _ w w tt Hmk), Hfile.
  by apply create_file_ok.
Qed.

Lemma extracted_cons (out : string) (m : member) (es : list member)
    (f : gmap string node) :
  extracted out (m :: es) f
  = extracted out es (<[target_of out m := File (m_payload m)]> f).
Proof. reflexivity. Qed.

Lemma extracted_other (out : string) (es : list member) :
  ∀ (f : gmap string node) (k : string),
    (∀ m, m ∈ es → target_of out m ≠ k) →
    extracted out es f !! k = f !! k.
Proof.
  induction es as [|m es IH]; intros f k Hk; [done|].
  rewrite extracted_cons, IH.
  - apply lookup_insert_ne. apply Hk, list_elem_of_here.
  - intros m' Hm'. by apply Hk, list_elem_of_further.
Qed.

Lemma extracted_not_dir (out : string) (es : list member) :
  ∀ (f : gmap string node) (k : string),
    f !! k ≠ Some Dir → extracted out es f !! k ≠ Some Dir.
Proof.
  induction es as [|m es IH]; intros f k Hk; [done|].
  rewrite extracted_cons. apply IH.
  destruct (String.eqb_spec (target_of out m) k) as [->|Hne].
  - by rewrite lookup_insert_eq.
  - by rewrite lookup_insert_ne.
Qed.

Lemma extracted_lookup (out : string) (es : list member) :
  ∀ (f : gmap string node) (m : member),
    (∀ m, m ∈ es → flat_member m) →
    NoDup (map m_name es) →
    m ∈ es →
    extracted out es f !! target_of out m = Some (File (m_payload m)).
Proof.
  induction es as [|m0 es IH]; intros f m Hflat Hnd Hm;
    [by apply elem_of_nil in Hm|].
  cbn [map] in Hnd. apply NoDup_cons in Hnd as [Hfresh Hnd].
  rewrite extracted_cons.
  apply elem_of_cons in Hm as [->|Hm].
  - rewrite extracted_other; [apply lookup_insert_eq|].
    intros m' Hm' Heq. apply Hfresh.
    apply join_inj in Heq.
    + rewrite <- Heq. by apply list_elem_of_fmap_2.
    + apply (Hflat m'). by apply list_elem_of_further.
    + apply (Hflat m0). apply list_elem_of_here.
  - apply IH; [|done|done]. intros m' Hm'. by apply Hflat, list_elem_of_further.
Qed.

Lemma tar_extractall_flat (out : string) (es : list member) :
  ∀ (w : world),
    (∀ m, m ∈ es → flat_member m) →
    fs w !! out = Some Dir →
    (∀ m, m ∈ es → unwritable E (target_of out m) = false) →
    (∀ m, m ∈ es → fs w !! target_of out m ≠ Some Dir) →
    tar_extractall E out es w = (Ok tt, set_fs (extracted out es) w).
Proof.
  unfold tar_extractall.
  induction es as [|m es IH]; intros w Hflat Hout Hw Hd.
  - simpl. by destruct w.
  - rewrite for_each_cons.
    rewrite (extract_flat_member out m w); try (by (apply Hflat || apply Hw || apply Hd);
      apply list_elem_of_here); [|done].
    rewrite IH.
    + done.
    + intros m' Hm'. by apply Hflat, list_elem_of_further.
    + simpl. rewrite lookup_insert_ne; [done|].
      destruct (Hflat m (list_elem_of_here _ _)) as (_ & Hne & Hs).
      by apply join_ne_dir.
    + intros m' Hm'. by apply Hw, list_elem_of_further.
    + intros m' Hm'. simpl.
      destruct (String.eqb_spec (target_of out m) (target_of out m')) as [->|Hne].
      * by rewrite lookup_insert_eq.
      * rewrite lookup_insert_ne by done. by apply Hd, list_elem_of_further.
Qed.

End ExtractLoop.

Lemma surviving_all (inputs : list (string * content)) : surviving "" inputs = inputs.
Proof.
  unfold surviving. induction inputs as [|fc inputs IH]; [done|].
  change (fc :: List.filter (λ fc, negb (_should_exclude fc.1 (Some ""))) inputs
          = fc :: inputs).
  by rewrite IH.
Qed.

Lemma filter_no_exclusion (ms : list member) :
  List.filter (λ m, negb (_should_exclude (m_name m) (Some ""))) ms = ms.
Proof.
  induction ms as [|m ms IH]; [done|].
  change (m :: List.filter (λ m, negb (_should_exclude (m_name m) (Some ""))) ms
          = m :: ms).
  by rewrite IH.
Qed.

Lemma tar_suffix_not_zip (s : string) :
  PyStr.endswith s ".tar" = true → PyStr.endswith s ".zip" = false.
Proof.
  intros Ht. destruct (PyStr.endswith s ".zip") eqn:Hz; [|done].
  by pose proof (endswith_nested s ".tar" ".zip" Ht Hz ltac:(simpl; lia)).
Qed.

(** X26. A tar archive made from plain files gives the files back. When
    [create_tar] packs readable regular files with distinct, non-empty base
    names into a path ending in [.tar], without an exclusion suffix, and
    [run_extraction] then unpacks that archive into an existing directory
    whose target files can be written, it reports success and every input
    is found below the directory under its base name with its content. *)
Theorem tar_round_trip (E : env) (inputs : list (string * content))
    (arc out : string) (recursive : bool) (w : world) :
  plain_inputs E w arc inputs →
  PyStr.endswith arc ".tar" = true →
  unwritable E arc = false →
  unreadable E arc = false →
  fs w !! arc ≠ Some Dir →
  fs w !! out = Some Dir →
  out ≠ "" →
  NoDup (map (λ fc, PyStr.basename fc.1) inputs) →
  (∀ f c, (f, c) ∈ inputs →
     PyStr.basename f ≠ ""
     ∧ PyStr.join out (PyStr.basename f) ≠ arc
     ∧ unwritable E (PyStr.join out (PyStr.basename f)) = false
     ∧ fs w !! PyStr.join out (PyStr.basename f) ≠ Some Dir) →
  let packed := (create_tar E (map fst inputs) arc recursive "" w).2 in
  let unpacked := run_extraction E (extract_request arc out "") packed in
  dialogs unpacked = dialogs w ++ [Information "Success" "Extraction complete."]
  ∧ ∀ f c, (f, c) ∈ inputs →
      fs unpacked !! PyStr.join out (PyStr.basename f) = Some (File c).
Proof.
  intros Hin Hsuf Hw Hr Hd Hout Hne Hnd Htargets packed unpacked.
  assert (out ≠ arc) as Hoa by (intros ->; congruence).
  subst unpacked packed.
  rewrite (create_tar_plain E inputs arc recursive "" w Hin Hw Hd).
  rewrite surviving_all. cbn [snd].
  set (es := map flat_entry inputs).
  set (w1 := set_fs <[arc := File (TarFile es true)]> w).
  assert (fs w1 !! arc = Some (File (TarFile es true))) as Harc.
  { subst w1. simpl. apply lookup_insert_eq. }
  assert (∀ m, m ∈ es → flat_member m) as Hflat.
  { intros m Hm. apply list_elem_of_fmap in Hm as ([f c] & -> & Hfc).
    destruct (Htargets f c Hfc) as (Hb & _).
    repeat split; [done|]. apply has_sep_basename. }
  assert (tar_extractall E out es w1 = (Ok tt, set_fs (extracted out es) w1)) as Hex.
  { apply tar_extractall_flat; [done| | |].
    - subst w1. simpl. by rewrite lookup_insert_ne.
    - intros m Hm. apply list_elem_of_fmap in Hm as ([f c] & -> & Hfc).
      by destruct (Htargets f c Hfc) as (_ & _ & Hu & _).
    - intros m Hm. apply list_elem_of_fmap in Hm as ([f c] & -> & Hfc).
      destruct (Htargets f c Hfc) as (_ & Hta & _ & Hnd').
      subst w1. simpl. unfold target_of. cbn [flat_entry m_name fst].
      by rewrite lookup_insert_ne. }
  assert (run_extraction E (extract_request arc out "") w1
          = show (Information "Success" "Extraction complete.")
              (set_fs (extracted out es) w1)) as Hrun.
  { unfold run_extraction, path_exists.
    change (line_extract_src (extract (extract_request arc out ""))) with arc.
    change (line_extract_dest (extract (extract_request arc out ""))) with out.
    change (PyStr.strip (line_extract_exclude (extract (extract_request arc out ""))))
      with "".
    rewrite Harc, (truthy_ne _ Hne). cbn [negb orb].
    unfold extract_by_suffix. rewrite (tar_suffix_not_zip _ Hsuf), Hsuf.
    rewrite (bind_ok _ _ w1 w1 es (tar_open_read_ok E arc w1 es true Harc (no_bytes_closed es) Hr)).
    by rewrite filter_no_exclusion, Hex. }
  rewrite Hrun. split; [done|].
  intros f c Hfc. cbn [show fs set_fs].
  apply (extracted_lookup out es _ (flat_entry (f, c)) Hflat).
  - subst es. by rewrite map_map.
  - subst es. by apply (list_elem_of_fmap_2 flat_entry) in Hfc.
Qed.

Lemma tar_round_trip_witness :
  let inputs := [("/tmp/a.txt", Bytes "A"); ("/tmp/b.tmp", Bytes "B")] in
  let packed := (create_tar calm (map fst inputs) "/tmp/out.tar" true ""
                   (World sample_files [] [])).2 in
  let unpacked := run_extraction calm (extract_request "/tmp/out.tar" "/tmp" "") packed in
  dialogs unpacked = [] ++ [Information "Success" "Extraction complete."]
  ∧ ∀ f c, (f, c) ∈ inputs →
      fs unpacked !! PyStr.join "/tmp" (PyStr.basename f) = Some (File c).
Proof.
  apply (tar_round_trip calm
           [("/tmp/a.txt", Bytes "A"); ("/tmp/b.tmp", Bytes "B")]
           "/tmp/out.tar" "/tmp" true (World sample_files [] [])).
  - intros f c Hin.
    apply elem_of_cons in Hin as [[= -> ->]|Hin];
      [|apply elem_of_cons in Hin as [[= -> ->]|Hin]; [|by apply elem_of_nil in Hin]];
      vm_compute; repeat split; discriminate.
  - vm_compute. reflexivity.
  - reflexivity.
  - reflexivity.
  - vm_compute. discriminate.
  - vm_compute. reflexivity.
  - discriminate.
  - vm_compute. repeat constructor; intros H; inversion H; subst;
      repeat match goal with H : _ ∈ _ |- _ => inversion H; clear H; subst end.
  - intros f c Hin.
    apply elem_of_cons in Hin as [[= -> ->]|Hin];
      [|apply elem_of_cons in Hin as [[= -> ->]|Hin]; [|by apply elem_of_nil in Hin]];
      vm_compute; repeat split; discriminate.
Defined.
